(** * Race predictor: the prediction core of [src/App.tsx]

    A shallow embedding of the model core of the single-file application
    (time parsing, recency weighting, fitness proxies, the Riegel baseline,
    the workout curve and the confidence-weighted blend), followed by the
    properties of the specification that concern it.

    Numbers.  The program computes with JavaScript numbers.  They are
    embedded as [num]: the three special values [NaN], [+Infinity],
    [-Infinity] and the finite values, carried by a real.  Every operation
    follows the special-value rules of the language (what [x/0],
    [Infinity - Infinity], [Math.log] of a negative number, [Math.max] with
    a [NaN] argument ... return); on finite operands it is the exact real
    operation.  Rounding, overflow, underflow and the sign of zero are
    therefore outside the model: [Math.exp], [Math.log], [Math.pow] and
    [Math.tanh] are implementation-approximated in the language, so only the
    exact operations they approximate can be reasoned about.

    Strings.  A string is a sequence of code units below 256; [trim],
    [split], [parseInt] and [parseFloat] are written out as the language
    defines them, and compute.

    Tables.  The two tables are object literals read with a computed key, so
    a read sees the properties inherited from [Object.prototype] as well as
    the entries; the array pattern that receives such a property throws, and
    the functions of the core return a [completion].

    Environment.  [Date.now()] and the [Date] constructor are parameters:
    the clock reading [now] and the function [getTime] from date strings to
    time values.  One run sees one clock reading.

    Around the core.  [formatSeconds], [toISODate], the predictions table
    of [App] and its handlers [addWorkout], [updateWorkout] and
    [delWorkout] are embedded after the core, as functions of the state
    they read; the storage of profiles and the rendering are not. *)

From Stdlib Require Import Reals Lra Lia ZArith List Bool.
From Stdlib Require Import Strings.String Strings.Ascii.
Import ListNotations.

Local Open Scope R_scope.

(** ** JavaScript numbers *)

Module JS.

Inductive num : Type :=
| NaN
| PInf
| NInf
| Fin (x : R).

(** Sign of a real, as a [comparison] with 0. *)
Definition sgn (x : R) : comparison :=
  if Rlt_dec 0 x then Gt else if Rlt_dec x 0 then Lt else Eq.

Definition isFinite (a : num) : bool :=
  match a with Fin _ => true | _ => false end.

Definition isNaN (a : num) : bool :=
  match a with NaN => true | _ => false end.

(** ToBoolean on a number: [NaN] and 0 are falsy. *)
Definition truthy (a : num) : bool :=
  match a with
  | NaN => false
  | Fin x => if Req_dec_T x 0 then false else true
  | _ => true
  end.

(** [a || d] on numbers. *)
Definition or_else (a d : num) : num := if truthy a then a else d.

Definition neg (a : num) : num :=
  match a with
  | NaN => NaN
  | PInf => NInf
  | NInf => PInf
  | Fin x => Fin (- x)
  end.

Definition add (a b : num) : num :=
  match a, b with
  | NaN, _ | _, NaN => NaN
  | PInf, NInf | NInf, PInf => NaN
  | PInf, _ | _, PInf => PInf
  | NInf, _ | _, NInf => NInf
  | Fin x, Fin y => Fin (x + y)
  end.

Definition sub (a b : num) : num := add a (neg b).

(** An infinity of the sign of [c], [NaN] when [c] is [Eq]. *)
Definition inf_of (c : comparison) : num :=
  match c with Gt => PInf | Lt => NInf | Eq => NaN end.

Definition mul (a b : num) : num :=
  match a, b with
  | NaN, _ | _, NaN => NaN
  | PInf, PInf | NInf, NInf => PInf
  | PInf, NInf | NInf, PInf => NInf
  | PInf, Fin y | Fin y, PInf => inf_of (sgn y)
  | NInf, Fin y | Fin y, NInf => inf_of (CompOpp (sgn y))
  | Fin x, Fin y => Fin (x * y)
  end.

(** Division.  A finite zero divisor is the positive zero. *)
Definition div (a b : num) : num :=
  match a, b with
  | NaN, _ | _, NaN => NaN
  | PInf, Fin y => if Rlt_dec y 0 then NInf else PInf
  | NInf, Fin y => if Rlt_dec y 0 then PInf else NInf
  | Fin _, PInf | Fin _, NInf => Fin 0
  | Fin x, Fin y => if Req_dec_T y 0 then inf_of (sgn x) else Fin (x / y)
  | _, _ => NaN
  end.

(** Comparisons: every comparison with [NaN] is false. *)
Definition le (a b : num) : bool :=
  match a, b with
  | NaN, _ | _, NaN => false
  | NInf, _ | _, PInf => true
  | PInf, _ | _, NInf => false
  | Fin x, Fin y => if Rle_dec x y then true else false
  end.

Definition lt (a b : num) : bool :=
  match a, b with
  | NaN, _ | _, NaN => false
  | PInf, _ | _, NInf => false
  | NInf, _ | _, PInf => true
  | Fin x, Fin y => if Rlt_dec x y then true else false
  end.

Definition ge (a b : num) : bool := le b a.
Definition gt (a b : num) : bool := lt b a.

(** [Math.max] and [Math.min]: [NaN] if either argument is. *)
Definition max (a b : num) : num :=
  match a, b with
  | NaN, _ | _, NaN => NaN
  | _, _ => if le a b then b else a
  end.

Definition min (a b : num) : num :=
  match a, b with
  | NaN, _ | _, NaN => NaN
  | _, _ => if le a b then a else b
  end.

(** [Math.log], [Math.exp], [Math.tanh]. *)
Definition log (a : num) : num :=
  match a with
  | NaN | NInf => NaN
  | PInf => PInf
  | Fin x => match sgn x with Gt => Fin (ln x) | Eq => NInf | Lt => NaN end
  end.

Definition exp (a : num) : num :=
  match a with
  | NaN => NaN
  | PInf => PInf
  | NInf => Fin 0
  | Fin x => Fin (Rtrigo_def.exp x)
  end.

Definition tanh (a : num) : num :=
  match a with
  | NaN => NaN
  | PInf => Fin 1
  | NInf => Fin (-1)
  | Fin x => Fin (Rtrigo_def.tanh x)
  end.

(** Integrality and parity of a real exponent. *)
Definition is_integer (y : R) : bool :=
  if Req_dec_T (frac_part y) 0 then true else false.

Definition is_odd_integer (y : R) : bool :=
  is_integer y && Z.odd (Int_part y).

(** [Math.pow base exponent], case by case as Number::exponentiate lists
    them. *)
Definition pow (a b : num) : num :=
  match b with
  | NaN => NaN
  | Fin y =>
      match sgn y with
      | Eq => Fin 1
      | cy =>
          match a with
          | NaN => NaN
          | PInf => match cy with Gt => PInf | _ => Fin 0 end
          | NInf =>
              match cy with
              | Gt => if is_odd_integer y then NInf else PInf
              | _ => Fin 0
              end
          | Fin x =>
              match sgn x with
              | Eq => match cy with Gt => Fin 0 | _ => PInf end
              | Gt => Fin (Rpower x y)
              | Lt =>
                  if is_integer y
                  then Fin (if Z.odd (Int_part y)
                            then - Rpower (- x) y else Rpower (- x) y)
                  else NaN
              end
          end
      end
  | PInf =>
      match a with
      | NaN => NaN
      | PInf => PInf
      | NInf => PInf
      | Fin x =>
          match sgn (Rabs x - 1) with
          | Gt => PInf | Eq => NaN | Lt => Fin 0
          end
      end
  | NInf =>
      match a with
      | NaN => NaN
      | PInf | NInf => Fin 0
      | Fin x =>
          match sgn (Rabs x - 1) with
          | Gt => Fin 0 | Eq => NaN | Lt => PInf
          end
      end
  end.

End JS.

Import JS.

Declare Scope num_scope.
Delimit Scope num_scope with num.
Bind Scope num_scope with num.
Infix "+" := add : num_scope.
Infix "-" := sub : num_scope.
Infix "*" := mul : num_scope.
Infix "/" := div : num_scope.

(** [const clamp = (x, a, b) => Math.min(b, Math.max(a, x))] *)
Definition clamp (x a b : num) : num := JS.min b (JS.max a x).

(** ** Strings: the library functions the parser calls

    A string is a sequence of code units; the ones that matter here are the
    white space the language trims, the colon, signs, digits, the decimal
    point and the exponent mark. *)

Module Str.

Local Open Scope string_scope.
Local Open Scope Z_scope.

Definition code (c : ascii) : Z := Z.of_N (N_of_ascii c).

(** TAB, LF, VT, FF, CR, space and no-break space. *)
Definition isWhiteSpace (c : ascii) : bool :=
  let n := code c in
  ((9 <=? n) && (n <=? 13)) || (n =? 32) || (n =? 160).

Definition digit (c : ascii) : option Z :=
  let n := code c in
  if (48 <=? n) && (n <=? 57) then Some (n - 48) else None.

Fixpoint trimStart (s : string) : string :=
  match s with
  | EmptyString => EmptyString
  | String c s' => if isWhiteSpace c then trimStart s' else s
  end.

Fixpoint trimEnd (s : string) : string :=
  match s with
  | EmptyString => EmptyString
  | String c s' =>
      match trimEnd s' with
      | EmptyString => if isWhiteSpace c then EmptyString else String c EmptyString
      | t => String c t
      end
  end.

(** [String.prototype.trim] *)
Definition trim (s : string) : string := trimEnd (trimStart s).

(** [s.split(sep)] for a one-character separator: never the empty list. *)
Fixpoint split (sep : ascii) (s : string) : list string :=
  match s with
  | EmptyString => [EmptyString]
  | String c s' =>
      if Ascii.eqb c sep then EmptyString :: split sep s'
      else match split sep s' with
           | [] => [String c EmptyString]
           | p :: ps => String c p :: ps
           end
  end.

(** The longest run of decimal digits at the front of [s]: the accumulated
    value (continuing from [acc]), how many digits were read, and the rest. *)
Fixpoint digits (s : string) (acc : Z) (k : nat) : Z * nat * string :=
  match s with
  | EmptyString => (acc, k, s)
  | String c s' =>
      match digit c with
      | Some d => digits s' (10 * acc + d) (S k)
      | None => (acc, k, s)
      end
  end.

(** An optional sign: the factor it stands for and the rest. *)
Definition sign (s : string) : Z * string :=
  match s with
  | String "-" s' => (-1, s')
  | String "+" s' => (1, s')
  | _ => (1, s)
  end.

(** What a numeric prefix denotes, before it becomes a number:
    nothing, an infinity, or [m * 10^e]. *)
Inductive literal : Type :=
| NoLiteral
| InfLiteral (negative : bool)
| Decimal (m e : Z).

(** [parseInt(s, 10)]: white space, a sign, then the digits; no digit, no
    number. *)
Definition scanInt (s : string) : literal :=
  let (sg, r) := sign (trimStart s) in
  let '(v, k, _) := digits r 0 0%nat in
  match k with
  | O => NoLiteral
  | _ => Decimal (sg * v) 0
  end.

(** An exponent part [e], [e+], [e-] followed by at least one digit;
    0 when there is none (the prefix then ends before the mark). *)
Definition exponentPart (s : string) : Z :=
  match s with
  | String c r =>
      if Ascii.eqb c "e" || Ascii.eqb c "E" then
        let (sg, r') := sign r in
        let '(v, k, _) := digits r' 0 0%nat in
        match k with O => 0 | _ => sg * v end
      else 0
  | EmptyString => 0
  end.

(** [parseFloat(s)]: white space, then the longest prefix that is a
    StrDecimalLiteral ([Infinity], [d+], [d+.d*], [.d+], each with an
    optional sign before and an optional exponent part after). *)
Definition scanFloat (s : string) : literal :=
  let (sg, r) := sign (trimStart s) in
  if prefix "Infinity" r then InfLiteral (sg <? 0)
  else
    let '(v1, k1, r1) := digits r 0 0%nat in
    match r1 with
    | String "." r2 =>
        let '(v2, k2, r3) := digits r2 v1 0%nat in
        match (k1 + k2)%nat with
        | O => NoLiteral
        | _ => Decimal (sg * v2) (exponentPart r3 - Z.of_nat k2)
        end
    | _ =>
        match k1 with
        | O => NoLiteral
        | _ => Decimal (sg * v1) (exponentPart r1)
        end
    end.

Definition toNum (l : literal) : num :=
  match l with
  | NoLiteral => NaN
  | InfLiteral negative => if negative then NInf else PInf
  | Decimal m e => Fin (IZR m * powerRZ 10 e)
  end.

Definition parseInt (s : string) : num := toNum (scanInt s).
Definition parseFloat (s : string) : num := toNum (scanFloat s).

End Str.

Import Str.

(** ** Utilities *)

(** [const DAY = 24 * 3600 * 1000] *)
Definition DAY : Z := 24 * 3600 * 1000.

(** [function parseTimeToSeconds(str)]: [!str] holds of the empty string. *)
Definition parseTimeToSeconds (str : string) : num :=
  match str with
  | EmptyString => NaN
  | _ =>
      match split ":" (trim str) with
      | [p] => parseFloat p
      | [m; s] =>
          or_else (parseInt m) (Fin 0) * Fin 60 + or_else (parseFloat s) (Fin 0)
      | [h; m; s] =>
          or_else (parseInt h) (Fin 0) * Fin 3600
          + or_else (parseInt m) (Fin 0) * Fin 60
          + or_else (parseFloat s) (Fin 0)
      | _ => NaN
      end
  end%num.


(** ** Object literals used as tables

    [RIEGEL_BY_TYPE] and [TYPE_WEIGHTS] are object literals read with
    [table[typeKey]].  Such a read finds the literal's own entries and, for
    any other key, the properties every object inherits from
    [Object.prototype]; only a key that names neither is [undefined]. *)

Inductive property (A : Type) : Type :=
| Own (v : A)
| Inherited
| Undefined.
Arguments Own {A} v.
Arguments Inherited {A}.
Arguments Undefined {A}.

(** The property names of [Object.prototype]. *)
Definition objectPrototypeKeys : list string :=
  [ "constructor"; "hasOwnProperty"; "isPrototypeOf"; "propertyIsEnumerable";
    "toLocaleString"; "toString"; "valueOf"; "__proto__";
    "__defineGetter__"; "__defineSetter__"; "__lookupGetter__";
    "__lookupSetter__" ]%string.

Definition inherited (k : string) : bool :=
  existsb (String.eqb k) objectPrototypeKeys.

Fixpoint own {A : Type} (entries : list (string * A)) (k : string) : option A :=
  match entries with
  | [] => None
  | (k', v) :: rest => if String.eqb k k' then Some v else own rest k
  end.

Definition get {A : Type} (entries : list (string * A)) (k : string) : property A :=
  match own entries k with
  | Some v => Own v
  | None => if inherited k then Inherited else Undefined
  end.

Definition ATHLETE_TYPES : list string :=
  [ "400/800"; "800"; "800/1500/miler"; "1500/miler"; "1500/5000"; "5000";
    "5000/10000"; "10000/marathon"; "marathon" ]%string.

(** Default Riegel exponent by athlete type. *)
Definition RIEGEL_BY_TYPE : list (string * R) :=
  [ ("400/800", 1.12); ("800", 1.10); ("800/1500/miler", 1.085);
    ("1500/miler", 1.08); ("1500/5000", 1.07); ("5000", 1.065);
    ("5000/10000", 1.06); ("10000/marathon", 1.055); ("marathon", 1.05) ]%string.

(** Workout weighting by type: (shortRepWeight, longRepWeight). *)
Definition TYPE_WEIGHTS : list (string * (R * R)) :=
  [ ("400/800", (0.70, 0.30)); ("800", (0.65, 0.35));
    ("800/1500/miler", (0.58, 0.42)); ("1500/miler", (0.52, 0.48));
    ("1500/5000", (0.45, 0.55)); ("5000", (0.38, 0.62));
    ("5000/10000", (0.32, 0.68)); ("10000/marathon", (0.25, 0.75));
    ("marathon", (0.18, 0.82)) ]%string.

(** Meters for common events. *)
Definition EVENTS : list (string * R) :=
  [ ("400", 400); ("800", 800); ("1500", 1500); ("mile", 1609);
    ("3000", 3000); ("5000", 5000); ("10000", 10000); ("half", 21097.5);
    ("marathon", 42195) ]%string.

(** ** Abrupt completion

    The one exception the core can raise: destructuring a value that is not
    iterable. *)

Inductive exn : Type := TypeError.

Inductive completion (A : Type) : Type :=
| Normal (a : A)
| Throw (e : exn).
Arguments Normal {A} a.
Arguments Throw {A} e.

(** ** Data *)

(** [workout = { id, reps, repDistanceM, repTimeStr, restSeconds, date }] *)
Record Workout : Type := mkWorkout {
  id : string;
  reps : num;
  repDistanceM : num;
  repTimeStr : string;
  restSeconds : num;
  date : string
}.

(** What [proxiesFromWorkout] returns when it does not return [null];
    a [null] field is [None]. *)
Record Proxies : Type := mkProxies {
  masProxy : option num;
  tProxy : option num;
  asrProxy : option num
}.

(** [{ mas, t, asr }]: a proxy nothing contributed to is [NaN]. *)
Record Fitness : Type := mkFitness {
  mas : num;
  t : num;
  asr : num
}.

(** [{ base, wkt, tBlend, fitness: fit, dataWt }] *)
Record Blend : Type := mkBlend {
  base : num;
  wkt : num;
  tBlend : num;
  fitness : Fitness;
  dataWt : num
}.

(** The six running sums of [aggregateFitness]. *)
Record Sums : Type := mkSums {
  masSum : num; masW : num;
  tSum : num; tW : num;
  asrSum : num; asrW : num
}.

(** ** Model core *)

(** [function riegelPredict(t1, d1, d2, b) { return t1 * Math.pow(d2/d1, b); }] *)
Definition riegelPredict (t1 d1 d2 b : num) : num :=
  (t1 * pow (d2 / d1) b)%num.

(** [function proxiesFromWorkout(w)] *)
Definition proxiesFromWorkout (w : Workout) : option Proxies :=
  let repSec := parseTimeToSeconds (repTimeStr w) in
  if negb (isFinite repSec) || le repSec (Fin 0) then None
  else
    let vRep := (repDistanceM w / repSec)%num in
    let work := repSec in
    let rest := or_else (restSeconds w) (Fin 0) in
    let wr := if gt work (Fin 0) then (rest / work)%num else Fin 0 in
    let recAtten := (Fin 1 / (Fin 1 + Fin 0.6 / (wr + Fin 0.05)))%num in
    let isShort := le (repDistanceM w) (Fin 600) in
    let isLong := ge (repDistanceM w) (Fin 800) in
    let masProxy :=
      if isShort then Some (vRep * (Fin 0.86 + Fin 0.12 * recAtten))%num
      else None in
    let tProxy :=
      if isLong
      then Some (vRep * (Fin 0.74 + Fin 0.20 * (Fin 1 - JS.tanh wr)))%num
      else None in
    let asrProxy :=
      if ge (repDistanceM w) (Fin 300) && le (repDistanceM w) (Fin 500)
      then Some vRep else None in
    Some (mkProxies masProxy tProxy asrProxy).

(** [if (p.x) { xSum += p.x * wt; xW += wt; }]: [null] and 0 are falsy. *)
Definition accumulate (proxy : option num) (wt : num) (sw : num * num)
  : num * num :=
  match proxy with
  | Some v => if truthy v then (fst sw + v * wt, snd sw + wt)%num else sw
  | None => sw
  end.

Section Clock.

(** The environment of a run: the reading of [Date.now()], in milliseconds,
    and the time value [new Date(dateStr).getTime()] of a date string, [None]
    when the string is no date (the time value is then [NaN]).  One run sees
    one reading of the clock. *)
Variable now : Z.
Variable getTime : string -> option Z.

(** [function decayWeight(dateStr, halfLifeDays = 21)] *)
Definition decayWeight (dateStr : string) (halfLifeDays : num) : num :=
  match getTime dateStr with
  | None => Fin 0
  | Some t =>
      let k := pow (Fin 0.5)
                   ((Fin (IZR now) - Fin (IZR t))
                    / (halfLifeDays * Fin (IZR DAY)))%num in
      clamp k (Fin 0) (Fin 1)
  end.

(** The default of the second parameter. *)
Definition halfLifeDays : num := Fin 21.

(** One turn of the loop of [aggregateFitness]. *)
Definition aggregateStep (acc : Sums) (w : Workout) : Sums :=
  match proxiesFromWorkout w with
  | None => acc
  | Some p =>
      let wt := decayWeight (date w) halfLifeDays in
      let (ms, mw) := accumulate (masProxy p) wt (masSum acc, masW acc) in
      let (ts, tw) := accumulate (tProxy p) wt (tSum acc, tW acc) in
      let (ss, sw) := accumulate (asrProxy p) wt (asrSum acc, asrW acc) in
      mkSums ms mw ts tw ss sw
  end.

(** [function aggregateFitness(workouts)] *)
Definition aggregateFitness (workouts : list Workout) : Fitness :=
  let z := Fin 0 in
  let acc := fold_left aggregateStep workouts (mkSums z z z z z z) in
  mkFitness
    (if gt (masW acc) (Fin 0) then (masSum acc / masW acc)%num else NaN)
    (if gt (tW acc) (Fin 0) then (tSum acc / tW acc)%num else NaN)
    (if gt (asrW acc) (Fin 0) then (asrSum acc / asrW acc)%num else NaN).

(** [const [wShort, wLong] = TYPE_WEIGHTS[typeKey] || [0.5, 0.5]].  An
    inherited property is truthy, so it is what the array pattern receives,
    and it is not iterable: the pattern throws. *)
Definition typeWeights (typeKey : string) : completion (num * num) :=
  match get TYPE_WEIGHTS typeKey with
  | Own (s, l) => Normal (Fin s, Fin l)
  | Inherited => Throw TypeError
  | Undefined => Normal (Fin 0.5, Fin 0.5)
  end.

(** [function workoutTimeForDistance(meters, fit, typeKey)] *)
Definition workoutTimeForDistance (meters : num) (fit : Fitness)
  (typeKey : string) : completion num :=
  match typeWeights typeKey with
  | Throw e => Throw e
  | Normal (wShort, wLong) =>
      let masUse := if isFinite (mas fit) then mas fit else Fin 5.5 in
      let tUse := if isFinite (t fit) then t fit else Fin 4.2 in
      let asrUse := if isFinite (asr fit) then asr fit else masUse in
      let t1500 := (Fin 1500 / (Fin 0.92 * masUse))%num in
      let t10k := (Fin 10000 / (Fin 0.98 * tUse))%num in
      let bW := (JS.log (t10k / t1500) / JS.log (Fin 10000 / Fin 1500))%num in
      let bAdj :=
        clamp (bW * (Fin 0.65 + Fin 0.35 * wLong))%num (Fin 1.03) (Fin 1.16) in
      let a := (t1500 / pow (Fin 1500) bAdj)%num in
      let tPred := (a * pow meters bAdj)%num in
      Normal
        (if le meters (Fin 800) then
           let pure := (meters / (Fin 0.90 * asrUse))%num in
           let bias := (Fin 0.35 + Fin 0.45 * wShort)%num in
           JS.exp (bias * JS.log pure + (Fin 1 - bias) * JS.log tPred)%num
         else tPred)
  end.

(** [const ln = (x) => Math.log(Math.max(1e-6, x))], the local [ln] of
    [blendPredictions]. *)
Definition ln_guard (x : num) : num := JS.log (JS.max (Fin 1e-6) x).

(** The confidence of [blendPredictions]:
    [n = workouts.length],
    [recentWt = workouts.reduce((s,w)=>s+decayWeight(w.date),0)],
    [conf = clamp((recentWt / Math.max(1,n)) * 0.9, 0, 0.9)]. *)
Definition blend_conf (workouts : list Workout) : num :=
  let n := Fin (INR (List.length workouts)) in
  let recentWt :=
    fold_left (fun s w => (s + decayWeight (date w) halfLifeDays)%num)
              workouts (Fin 0) in
  clamp ((recentWt / JS.max (Fin 1) n) * Fin 0.9)%num (Fin 0) (Fin 0.9).

(** [dataWt = clamp(0.25 + 0.6*conf, 0.25, 0.85)] *)
Definition blend_dataWt (conf : num) : num :=
  clamp (Fin 0.25 + Fin 0.6 * conf)%num (Fin 0.25) (Fin 0.85).

(** [RIEGEL_BY_TYPE[typeKey] || 1.08], as [Math.pow] receives it.  An
    inherited property is an object: truthy, and [NaN] once converted to a
    number. *)
Definition riegelExponent (typeKey : string) : num :=
  match get RIEGEL_BY_TYPE typeKey with
  | Own v => or_else (Fin v) (Fin 1.08)
  | Inherited => NaN
  | Undefined => Fin 1.08
  end.

(** [function blendPredictions(prTime, prDist, meters, typeKey, workouts)] *)
Definition blendPredictions (prTime prDist meters : num) (typeKey : string)
  (workouts : list Workout) : completion Blend :=
  let b := riegelExponent typeKey in
  let base := riegelPredict prTime prDist meters b in
  let fit := aggregateFitness workouts in
  match workoutTimeForDistance meters fit typeKey with
  | Throw e => Throw e
  | Normal wkt =>
      let conf := blend_conf workouts in
      let dataWt := blend_dataWt conf in
      let tBlend :=
        JS.exp (dataWt * ln_guard wkt
                + (Fin 1 - dataWt) * ln_guard base)%num in
      Normal (mkBlend base wkt tBlend fit dataWt)
  end.

End Clock.

(** ** Calendar dates

    The application dates a new workout with [toISODate(new Date())]: the
    first ten characters of the ISO rendering of the clock, that is the
    calendar day of [now] in UTC, written [YYYY-MM-DD].  The [Date]
    constructor reads a date-only string back as midnight UTC of that day. *)

Module Calendar.

Local Open Scope Z_scope.

(** Days from 1970-01-01 to the civil date [y-m-d] (proleptic Gregorian). *)
Definition daysFromCivil (y m d : Z) : Z :=
  let y' := if m <=? 2 then y - 1 else y in
  let era := y' / 400 in
  let yoe := y' - era * 400 in
  let mp := (m + 9) mod 12 in
  let doy := (153 * mp + 2) / 5 + d - 1 in
  let doe := yoe * 365 + yoe / 4 - yoe / 100 + doy in
  era * 146097 + doe - 719468.

Definition isLeap (y : Z) : bool :=
  ((y mod 4 =? 0) && negb (y mod 100 =? 0)) || (y mod 400 =? 0).

Definition daysInMonth (y m : Z) : Z :=
  if m =? 2 then (if isLeap y then 29 else 28)
  else if (m =? 4) || (m =? 6) || (m =? 9) || (m =? 11) then 30
  else 31.

Definition number (ds : list ascii) : option Z :=
  fold_left
    (fun acc c =>
       match acc, digit c with
       | Some a, Some d => Some (10 * a + d)
       | _, _ => None
       end)
    ds (Some 0).

(** The time value of a date-only string [YYYY-MM-DD]; every other string
    is left unread. *)
Definition isoDate (s : string) : option Z :=
  match list_ascii_of_string s with
  | [y1; y2; y3; y4; "-"%char; m1; m2; "-"%char; d1; d2] =>
      match number [y1; y2; y3; y4], number [m1; m2], number [d1; d2] with
      | Some y, Some m, Some d =>
          if (1 <=? m) && (m <=? 12) && (1 <=? d) && (d <=? daysInMonth y m)
          then Some (daysFromCivil y m d * DAY)
          else None
      | _, _, _ => None
      end
  | _ => None
  end.

End Calendar.

(** Midnight UTC of the day of [now]. *)
Definition startOfDay (now : Z) : Z := (DAY * (now / DAY))%Z.


(** A type key that names no property of [Object.prototype]: the nine
    athlete types and every key the tables simply do not have. *)
Definition plainKey (k : string) : Prop := inherited k = false.

(** ** The quantities of the blend, over the reals

    What the number-level code computes, written once over the reals; the
    lemmas of the next part connect the two. *)

Section Reals.

Variable now : Z.
Variable getTime : string -> option Z.

(** [0.5^(days since t / 21)], before the clamp. *)
Definition rawDecay (t : Z) : R :=
  Rpower 0.5 ((IZR now - IZR t) / (21 * IZR DAY)).

(** The recency weight of a date string. *)
Definition weight (dateStr : string) : R :=
  match getTime dateStr with
  | None => 0
  | Some t => Rmin 1 (Rmax 0 (rawDecay t))
  end.

(** The sum the [reduce] of [blendPredictions] computes, left to right. *)
Definition weightSum (ws : list Workout) : R :=
  fold_left (fun s w => s + weight (date w)) ws 0.

(** [recentWt / Math.max(1, n)] *)
Definition averageWeight (ws : list Workout) : R :=
  weightSum ws / Rmax 1 (INR (List.length ws)).

Definition confidence (ws : list Workout) : R := averageWeight ws * 0.9.

Definition dataWeight (ws : list Workout) : R := 0.25 + 0.6 * confidence ws.

End Reals.

(** Two workouts that differ at most in their rep count. *)
Definition sameButReps (w1 w2 : Workout) : Prop :=
  id w1 = id w2 /\ repDistanceM w1 = repDistanceM w2
  /\ repTimeStr w1 = repTimeStr w2 /\ restSeconds w1 = restSeconds w2
  /\ date w1 = date w2.


(** ** Sample inputs *)

Module Sample.

(** 2026-11-01T12:00:00Z *)
Definition noon : Z := 1793534400000.

(** The workout [addWorkout] creates, with a given rep time and date. *)
Definition workout (repTime dateStr : string) : Workout :=
  mkWorkout "w" (Fin 4) (Fin 400) repTime (Fin 60) dateStr.

Definition today : Workout := workout "65.0" "2026-11-01".

End Sample.




(** A workout whose rep distance and rest are finite and not negative; its
    rep time and its date may be any strings. *)
Definition wellFormed (w : Workout) : Prop :=
  exists d rest : R,
    repDistanceM w = Fin d /\ 0 <= d /\ restSeconds w = Fin rest /\ 0 <= rest.




(** The characters a StrDecimalLiteral can begin with. *)
Definition startsNumber (c : ascii) : bool :=
  match digit c with
  | Some _ => true
  | None =>
      Ascii.eqb c "+" || Ascii.eqb c "-" || Ascii.eqb c "." || Ascii.eqb c "I"
  end.

(** ** Further quantities over the reals *)






(** ** The application around the core *)

(** One row of the predictions table: [{ event: ev.key, base, wkt, tBlend }]. *)
Module Prediction.
Record t : Type := mk {
  event : string;
  base : num;
  wkt : num;
  tBlend : num
}.
End Prediction.

(** [prMeters]: [EVENTS.find(e => e.key === prEvent)], its [m] when there
    is one, 1500 otherwise. *)
Definition prMeters (prEvent : string) : R :=
  match own EVENTS prEvent with
  | Some m => m
  | None => 1500
  end.

(** [evs.map(ev => ...)] over the events, left to right; the first call
    that throws ends the map. *)
Fixpoint mapEvents (f : R -> completion Blend) (evs : list (string * R))
  : completion (list Prediction.t) :=
  match evs with
  | [] => Normal []
  | (key, m) :: rest =>
      match f m with
      | Throw e => Throw e
      | Normal r =>
          match mapEvents f rest with
          | Throw e => Throw e
          | Normal ps =>
              Normal (Prediction.mk key (base r) (wkt r) (tBlend r) :: ps)
          end
      end
  end.

(** The [predictions] of [App]: nothing when the PR time is not a finite
    number, one row per event otherwise. *)
Definition predictions (now : Z) (getTime : string -> option Z)
  (prTime prEvent athleteType : string) (workouts : list Workout)
  : completion (list Prediction.t) :=
  let tPR := parseTimeToSeconds prTime in
  if negb (isFinite tPR) then Normal []
  else
    mapEvents
      (fun m =>
         blendPredictions now getTime tPR (Fin (prMeters prEvent)) (Fin m)
           athleteType workouts)
      EVENTS.

(** The workout [addWorkout] appends, for an identifier and a date. *)
Definition newWorkout (uuid dateStr : string) : Workout :=
  mkWorkout uuid (Fin 4) (Fin 400) "65.0" (Fin 60) dateStr.

(** The object [updateWorkout] merges into a workout: the fields it
    holds. *)
Record Patch : Type := mkPatch {
  patch_id : option string;
  patch_reps : option num;
  patch_repDistanceM : option num;
  patch_repTimeStr : option string;
  patch_restSeconds : option num;
  patch_date : option string
}.

(** [{...w, ...patch}] *)
Definition merge (w : Workout) (p : Patch) : Workout :=
  let pick {A : Type} (o : option A) (d : A) : A :=
    match o with Some v => v | None => d end in
  mkWorkout (pick (patch_id p) (id w)) (pick (patch_reps p) (reps w))
            (pick (patch_repDistanceM p) (repDistanceM w))
            (pick (patch_repTimeStr p) (repTimeStr w))
            (pick (patch_restSeconds p) (restSeconds w))
            (pick (patch_date p) (date w)).

(** [ws.map(w => w.id === id ? {...w, ...patch} : w)] *)
Definition updateWorkout (i : string) (p : Patch) (ws : list Workout)
  : list Workout :=
  map (fun w => if String.eqb (id w) i then merge w p else w) ws.


(** The patch of the rep-count field: [{reps: n}]. *)
Definition repsPatch (n : num) : Patch :=
  mkPatch None (Some n) None None None None.

(** ** Numbers to strings

    [formatSeconds] prints integers with [String(n)] and the seconds with
    [toFixed(1)].  After its [isFinite] guard every number it handles is
    finite, so its body is written over the reals.  [String(n)] is the
    decimal rendering for an integer below 1e21 in magnitude (beyond that
    the language switches to exponent notation, which is not modelled). *)

Module Fmt.

(** The digit character of [d], for [0 <= d <= 9]. *)
Definition digitChar (d : Z) : ascii := ascii_of_N (Z.to_N (48 + d)).

(** The decimal digits of [n >= 0] in front of [acc], most significant
    first; [fuel] bounds their number. *)
Fixpoint renderDigits (fuel : nat) (n : Z) (acc : string) : string :=
  match fuel with
  | O => acc
  | S f =>
      let acc' := String (digitChar (n mod 10)) acc in
      if (n <? 10)%Z then acc' else renderDigits f (n / 10) acc'
  end.

Definition renderNat (n : Z) : string :=
  renderDigits (S (Z.to_nat (Z.log2 n))) n EmptyString.

(** [String(n)] for an integer [n]. *)
Definition renderInt (n : Z) : string :=
  if (n <? 0)%Z then String "-" (renderNat (- n)) else renderNat n.

Fixpoint zeros (k : nat) (s : string) : string :=
  match k with
  | O => s
  | S k' => String "0" (zeros k' s)
  end.

(** [s.padStart(len, "0")] *)
Definition padStart (len : nat) (s : string) : string :=
  zeros (len - String.length s) s.

(** [x.toFixed(1)]: the integer [n] with [n / 10] closest to [|x|], the
    larger one of two, printed with a point before its last digit and the
    sign of [x] in front. *)
Definition toFixed1 (x : R) : string :=
  let n := Zfloor (10 * Rabs x + 1 / 2) in
  ((if Rlt_dec x 0 then "-" else "")
   ++ renderNat (n / 10) ++ "." ++ renderNat (n mod 10))%string.

(** Truncation toward zero, and the remainder [x % y] it defines. *)
Definition truncZ (q : R) : Z :=
  if Rle_dec 0 q then Zfloor q else (- Zfloor (- q))%Z.

Definition rem (x y : R) : R := x - y * IZR (truncZ (x / y)).

(** The placeholder of [formatSeconds], an em dash (U+2014), as the three
    bytes of its UTF-8 encoding. *)
Definition placeholder : string :=
  String (ascii_of_nat 226) (String (ascii_of_nat 128)
    (String (ascii_of_nat 148) EmptyString)).

End Fmt.

Import Fmt.

(** [function formatSeconds(t)] *)
Definition formatSeconds (a : num) : string :=
  match a with
  | Fin t =>
      if Rle_dec 3600 t then
        let h := Zfloor (t / 3600) in
        let m := Zfloor (rem t 3600 / 60) in
        let s := padStart 4 (toFixed1 (rem t 60)) in
        (renderInt h ++ ":" ++ padStart 2 (renderInt m) ++ ":"
         ++ padStart 4 s)%string
      else
        let m := Zfloor (t / 60) in
        let s := padStart 4 (toFixed1 (rem t 60)) in
        (renderInt m ++ ":" ++ padStart 4 s)%string
  | _ => placeholder
  end.

(** A string all of whose characters satisfy [P]. *)
Fixpoint allChars (P : ascii -> bool) (s : string) : bool :=
  match s with
  | EmptyString => true
  | String c s' => P c && allChars P s'
  end.

Definition isDigit (c : ascii) : bool :=
  match digit c with Some _ => true | None => false end.

Definition notWhite (c : ascii) : bool := negb (isWhiteSpace c).
Definition notColon (c : ascii) : bool := negb (Ascii.eqb c ":").

(** The characters of a printed field: digits and the decimal point. *)
Definition fieldChar (c : ascii) : bool := isDigit c || Ascii.eqb c ".".

(** ** Dates out of the clock *)

Module Civil.

Local Open Scope Z_scope.

(** The civil date of day [doe] of the 400-year era [era], the eras
    starting on 1 March of the years divisible by 400. *)
Definition civilOfEra (era doe : Z) : Z * Z * Z :=
  let yoe := (doe - doe / 1460 + doe / 36524 - doe / 146096) / 365 in
  let y := yoe + era * 400 in
  let doy := doe - (365 * yoe + yoe / 4 - yoe / 100) in
  let mp := (5 * doy + 2) / 153 in
  let d := doy - (153 * mp + 2) / 5 + 1 in
  let m := if mp <? 10 then mp + 3 else mp - 9 in
  (if m <=? 2 then y + 1 else y, m, d).

(** Year, month and day of the day number [z] (days since 1970-01-01). *)
Definition civilFromDays (z : Z) : Z * Z * Z :=
  civilOfEra ((z + 719468) / 146097) ((z + 719468) mod 146097).

(** [n] in at least [len] digits. *)
Definition pad (len : nat) (n : Z) : string := padStart len (renderNat n).

(** The date part of [toISOString()]: four digits for the years 0 to 9999,
    a sign and six digits for the others. *)
Definition isoYear (y : Z) : string :=
  if (0 <=? y) && (y <=? 9999) then pad 4 y
  else if y <? 0 then String "-" (pad 6 (Z.abs y))
  else String "+" (pad 6 (Z.abs y)).

Definition isoDatePart (y m d : Z) : string :=
  (isoYear y ++ "-" ++ pad 2 m ++ "-" ++ pad 2 d)%string.

(** The whole window of one era, checked day by day: the civil date of
    each day is a valid date and converts back to the day. *)
Definition dayRoundTrips (doe : Z) : bool :=
  let '(y, m, d) := civilOfEra 0 doe in
  (Calendar.daysFromCivil y m d =? doe - 719468)
  && (1 <=? m) && (m <=? 12) && (1 <=? d) && (d <=? Calendar.daysInMonth y m).

(** A number of at most [len] digits is printed in exactly [len] digits
    that read back as the number. *)
Definition fieldRoundTrips (len : nat) (n : Z) : bool :=
  let cs := list_ascii_of_string (pad len n) in
  (List.length cs =? len)%nat
  && match Calendar.number cs with
     | Some v => v =? n
     | None => false
     end.

End Civil.

(** [const toISODate = (d) => new Date(d).toISOString().slice(0,10)], for a
    time value [d]; [toISOString] throws a [RangeError] on a time value
    beyond 8.64e15 ms either way, which is [None] here. *)
Definition toISODate (d : Z) : option string :=
  if (Z.abs d <=? 8640000000000000)%Z then
    let '(y, m, day) := Civil.civilFromDays (d / DAY) in
    Some (substring 0 10 (Civil.isoDatePart y m day))
  else None.


(** The calendar year of a time value is one [toISOString] prints in four
    digits. *)
Definition fourDigitYear (d : Z) : Prop :=
  let '(y, _, _) := Civil.civilFromDays (d / DAY) in (0 <= y <= 9999)%Z.

(** [P] holds of the [fuel] integers from [z] on. *)
Fixpoint allFrom (P : Z -> bool) (fuel : nat) (z : Z) : bool :=
  match fuel with
  | O => true
  | S f => P z && allFrom P f (z + 1)
  end.

(** * Properties *)

(** ** Arithmetic on finite numbers *)

Lemma sgn_pos x : 0 < x -> sgn x = Gt.
Proof. intros H; unfold sgn; destruct (Rlt_dec 0 x); [reflexivity | lra]. Qed.

Lemma sgn_neg x : x < 0 -> sgn x = Lt.
Proof.
  intros H; unfold sgn; destruct (Rlt_dec 0 x); [lra |].
  destruct (Rlt_dec x 0); [reflexivity | lra].
Qed.

Lemma sgn_zero : sgn 0 = Eq.
Proof.
  unfold sgn; destruct (Rlt_dec 0 0); [lra |].
  destruct (Rlt_dec 0 0); [lra | reflexivity].
Qed.

Lemma add_Fin x y : (Fin x + Fin y)%num = Fin (x + y).
Proof. reflexivity. Qed.

Lemma sub_Fin x y : (Fin x - Fin y)%num = Fin (x - y).
Proof. reflexivity. Qed.

Lemma mul_Fin x y : (Fin x * Fin y)%num = Fin (x * y).
Proof. reflexivity. Qed.

(** Arithmetic on finite operands, pushed inside [Fin]. *)
Ltac fin_arith :=
  repeat (rewrite mul_Fin || rewrite add_Fin || rewrite sub_Fin).

Lemma div_Fin x y : y <> 0 -> (Fin x / Fin y)%num = Fin (x / y).
Proof. intros H; simpl; destruct (Req_dec_T y 0); [contradiction | reflexivity]. Qed.


Lemma le_Fin_gt x y : y < x -> le (Fin x) (Fin y) = false.
Proof. intros H; simpl; destruct (Rle_dec x y); [lra | reflexivity]. Qed.



Lemma max_Fin x y : JS.max (Fin x) (Fin y) = Fin (Rmax x y).
Proof.
  simpl; unfold Rmax; destruct (Rle_dec x y); reflexivity.
Qed.

Lemma min_Fin x y : JS.min (Fin x) (Fin y) = Fin (Rmin x y).
Proof.
  simpl; unfold Rmin; destruct (Rle_dec x y); reflexivity.
Qed.

Lemma clamp_Fin x a b : clamp (Fin x) (Fin a) (Fin b) = Fin (Rmin b (Rmax a x)).
Proof. unfold clamp; rewrite max_Fin, min_Fin; reflexivity. Qed.

Lemma clamp_id x a b : a <= x <= b -> clamp (Fin x) (Fin a) (Fin b) = Fin x.
Proof.
  intros [Ha Hb]; rewrite clamp_Fin; f_equal.
  rewrite (Rmax_right a x Ha); apply Rmin_right; exact Hb.
Qed.


Lemma Rpower_zero_exponent x : Rpower x 0 = 1.
Proof. unfold Rpower; rewrite Rmult_0_l; apply exp_0. Qed.

Lemma Rpower_base_one y : Rpower 1 y = 1.
Proof. unfold Rpower; rewrite ln_1, Rmult_0_r; apply exp_0. Qed.

Lemma pow_Fin x y : 0 < x -> pow (Fin x) (Fin y) = Fin (Rpower x y).
Proof.
  intros H; unfold pow.
  destruct (Rtotal_order y 0) as [Hy | [Hy | Hy]].
  - rewrite (sgn_neg y Hy), (sgn_pos x H); reflexivity.
  - subst y; rewrite sgn_zero, Rpower_zero_exponent; reflexivity.
  - rewrite (sgn_pos y Hy), (sgn_pos x H); reflexivity.
Qed.

Lemma Rpower_pos x y : 0 < Rpower x y.
Proof. unfold Rpower; apply exp_pos. Qed.


Lemma literals_sane : 0.5 = 1 / 2 /\ 1e-6 = 1 / 1000000 /\ 21097.5 = 42195 / 2.
Proof. repeat split; lra. Qed.

Example scan_examples :
  scanFloat "1:45.5" = Decimal 1 0 /\ scanFloat "45.5" = Decimal 455 (-1)
  /\ scanFloat " -.5e3x" = Decimal (-5) 2 /\ scanFloat "." = NoLiteral
  /\ scanFloat "5.e" = Decimal 5 0 /\ scanFloat "-Infinityx" = InfLiteral true
  /\ scanInt "  +12ab" = Decimal 12 0 /\ scanInt "ab" = NoLiteral
  /\ split ":" (trim "  1:02:03.5 ") = ["1"; "02"; "03.5"]%string
  /\ split ":" "" = [""%string] /\ split ":" "a:" = ["a"; ""]%string.
Proof. repeat split; reflexivity. Qed.

Example isoDate_examples :
  Calendar.isoDate "1970-01-01" = Some 0%Z
  /\ Calendar.isoDate "2026-11-01" = Some 1793491200000%Z
  /\ Calendar.isoDate "2026-11-02" = Some (1793491200000 + DAY)%Z
  /\ Calendar.isoDate "2026-13-01" = None
  /\ Calendar.isoDate "yesterday" = None
  /\ startOfDay (1793491200000 + 43200000) = 1793491200000%Z.
Proof. repeat split; reflexivity. Qed.

(** ** The Riegel baseline *)

(** C8.  At the PR distance the baseline returns the PR time itself:
    [riegelPredict(t, d, d, b) = t] for every [t > 0], [d > 0] and every
    exponent [b]. *)
Theorem riegelPredict_identity (t d b : R) :
  0 < t -> 0 < d ->
  riegelPredict (Fin t) (Fin d) (Fin d) (Fin b) = Fin t.
Proof.
  intros Ht Hd; unfold riegelPredict.
  rewrite div_Fin by lra.
  replace (d / d) with 1 by (field; lra).
  rewrite pow_Fin by lra.
  rewrite Rpower_base_one, mul_Fin.
  f_equal; ring.
Qed.

Lemma riegelPredict_identity_witness :
  riegelPredict (Fin 240) (Fin 1500) (Fin 1500) (Fin 1.08) = Fin 240.
Proof. apply riegelPredict_identity; lra. Defined.

(** ** Recency weights *)

Lemma IZR_DAY : IZR DAY = 86400000.
Proof. reflexivity. Qed.

Lemma rawDecay_pos now t : 0 < rawDecay now t.
Proof. apply Rpower_pos. Qed.

Lemma ln_half_neg : ln 0.5 < 0.
Proof. rewrite <- ln_1; apply ln_increasing; lra. Qed.

(** At or after [now] the value before the clamp is at least 1. *)
Lemma rawDecay_future now t : (now <= t)%Z -> 1 <= rawDecay now t.
Proof.
  intros H; apply IZR_le in H.
  unfold rawDecay, Rpower; rewrite <- exp_0.
  assert (Hx : (IZR now - IZR t) / (21 * IZR DAY) <= 0).
  { rewrite IZR_DAY; apply Rmult_le_reg_r with (21 * 86400000); [lra |].
    unfold Rdiv; rewrite Rmult_assoc, Rinv_l by lra; lra. }
  pose proof ln_half_neg as Hl.
  destruct Hx as [Hx | Hx].
  - left; apply exp_increasing; nra.
  - rewrite Hx, Rmult_0_l; right; reflexivity.
Qed.




Lemma weight_range now getTime d : 0 <= weight now getTime d <= 1.
Proof.
  unfold weight; destruct (getTime d) as [t |]; [| lra].
  pose proof (rawDecay_pos now t) as Hp.
  split.
  - apply Rmin_glb; [lra | apply Rmax_l].
  - apply Rmin_l.
Qed.

(** The number the code returns is the real weight. *)
Lemma decayWeight_weight now getTime d :
  decayWeight now getTime d halfLifeDays = Fin (weight now getTime d).
Proof.
  unfold decayWeight, weight, halfLifeDays.
  destruct (getTime d) as [t |]; [| reflexivity].
  cbv zeta.
  rewrite sub_Fin, mul_Fin, div_Fin by (rewrite IZR_DAY; lra).
  rewrite pow_Fin by lra.
  rewrite clamp_Fin; reflexivity.
Qed.

(** C7.  With the default half-life, [decayWeight] returns a finite value in
    [0, 1] for every date string and every reading of the clock; a string
    that is no date gives exactly 0; a date at or after [now] gives exactly
    1, the value before the clamp being at least 1. *)
Theorem decayWeight_range (now : Z) (getTime : string -> option Z)
  (dateStr : string) :
  exists x : R,
    decayWeight now getTime dateStr halfLifeDays = Fin x
    /\ 0 <= x <= 1
    /\ (getTime dateStr = None -> x = 0)
    /\ (forall t : Z, getTime dateStr = Some t -> (now <= t)%Z ->
          1 <= rawDecay now t /\ x = 1).
Proof.
  exists (weight now getTime dateStr).
  split; [apply decayWeight_weight |].
  split; [apply weight_range |].
  unfold weight; split.
  - intros ->; reflexivity.
  - intros t -> Hle.
    pose proof (rawDecay_future now t Hle) as H1.
    split; [exact H1 |].
    rewrite Rmax_right by lra.
    apply Rmin_left; exact H1.
Qed.

Lemma decayWeight_range_witness :
  decayWeight 1793534400000 Calendar.isoDate "2026-11-02" halfLifeDays = Fin 1
  /\ decayWeight 1793534400000 Calendar.isoDate "tomorrow" halfLifeDays = Fin 0.
Proof.
  split.
  - destruct (decayWeight_range 1793534400000 Calendar.isoDate "2026-11-02")
      as (x & -> & _ & _ & Hfut).
    destruct (Hfut (1793491200000 + DAY)%Z) as [_ ->];
      [reflexivity | vm_compute; discriminate | reflexivity].
  - destruct (decayWeight_range 1793534400000 Calendar.isoDate "tomorrow")
      as (x & -> & _ & Hnone & _).
    rewrite Hnone; reflexivity.
Defined.

(** ** Type keys *)

Lemma typeWeights_plain k :
  plainKey k ->
  exists s l : R,
    typeWeights k = Normal (Fin s, Fin l) /\ 0 < s /\ 0 < l /\ s + l = 1.
Proof.
  unfold plainKey, typeWeights, get, TYPE_WEIGHTS; intros Hk; simpl own.
  repeat match goal with
         | |- context [String.eqb k ?c] => destruct (String.eqb k c)
         end;
    try (eexists; eexists; split; [reflexivity | lra]).
  rewrite Hk; exists 0.5, 0.5; split; [reflexivity | lra].
Qed.


Lemma athlete_types_plain k : In k ATHLETE_TYPES -> plainKey k.
Proof.
  unfold ATHLETE_TYPES; simpl; intros H.
  repeat (destruct H as [<- | H]; [reflexivity |]); contradiction.
Qed.

(** ** The blend weight *)

Section BlendWeight.

Variable now : Z.
Variable getTime : string -> option Z.

Lemma fold_weights_shift ws a :
  fold_left (fun s w => s + weight now getTime (date w)) ws a
  = a + fold_left (fun s w => s + weight now getTime (date w)) ws 0.
Proof.
  revert a; induction ws as [| w ws IH]; intros a; simpl.
  - ring.
  - rewrite (IH (a + _)), (IH (0 + _)); ring.
Qed.

Lemma weightSum_nil : weightSum now getTime [] = 0.
Proof. reflexivity. Qed.

Lemma weightSum_cons w ws :
  weightSum now getTime (w :: ws) = weight now getTime (date w) + weightSum now getTime ws.
Proof.
  unfold weightSum; simpl.
  rewrite fold_weights_shift; ring.
Qed.


Lemma weightSum_range ws :
  0 <= weightSum now getTime ws <= INR (List.length ws).
Proof.
  induction ws as [| w ws IH].
  - rewrite weightSum_nil; simpl; lra.
  - rewrite weightSum_cons.
    change (List.length (w :: ws)) with (S (List.length ws)); rewrite S_INR.
    pose proof (weight_range now getTime (date w)); lra.
Qed.


Lemma averageWeight_range ws : 0 <= averageWeight now getTime ws <= 1.
Proof.
  unfold averageWeight.
  pose proof (weightSum_range ws) as [H0 Hn].
  pose proof (Rmax_l 1 (INR (List.length ws))) as H1.
  pose proof (Rmax_r 1 (INR (List.length ws))) as H2.
  set (m := Rmax 1 (INR (List.length ws))) in *.
  split.
  - apply Rmult_le_reg_r with m; [lra |].
    unfold Rdiv; rewrite Rmult_assoc, Rinv_l by lra; lra.
  - apply Rmult_le_reg_r with m; [lra |].
    unfold Rdiv; rewrite Rmult_assoc, Rinv_l by lra; lra.
Qed.

Lemma dataWeight_range ws : 0.25 <= dataWeight now getTime ws <= 0.79.
Proof.
  unfold dataWeight, confidence.
  pose proof (averageWeight_range ws); lra.
Qed.

(** The running sum of the code is the real sum. *)
Lemma recentWt_weightSum ws a :
  fold_left (fun s w => (s + decayWeight now getTime (date w) halfLifeDays)%num)
            ws (Fin a)
  = Fin (fold_left (fun s w => s + weight now getTime (date w)) ws a).
Proof.
  revert a; induction ws as [| w ws IH]; intros a; cbn [fold_left]; [reflexivity |].
  rewrite decayWeight_weight, add_Fin; apply IH.
Qed.

Lemma blend_conf_confidence ws :
  blend_conf now getTime ws = Fin (confidence now getTime ws).
Proof.
  unfold blend_conf; cbv zeta.
  rewrite recentWt_weightSum, max_Fin.
  pose proof (Rmax_l 1 (INR (List.length ws))) as H1.
  rewrite div_Fin by lra.
  rewrite mul_Fin.
  apply clamp_id.
  pose proof (averageWeight_range ws) as Ha.
  unfold confidence, averageWeight, weightSum in *; lra.
Qed.

Lemma blend_dataWt_dataWeight ws :
  blend_dataWt (blend_conf now getTime ws) = Fin (dataWeight now getTime ws).
Proof.
  rewrite blend_conf_confidence; unfold blend_dataWt.
  rewrite mul_Fin, add_Fin.
  apply clamp_id.
  pose proof (dataWeight_range ws) as Ha.
  unfold dataWeight in *; lra.
Qed.

(** On a plain key the call returns, with this record. *)
Lemma blendPredictions_plain prTime prDist meters k ws :
  plainKey k ->
  exists wk : num,
    workoutTimeForDistance meters (aggregateFitness now getTime ws) k = Normal wk
    /\ blendPredictions now getTime prTime prDist meters k ws
       = Normal
           (mkBlend
              (riegelPredict prTime prDist meters (riegelExponent k))
              wk
              (JS.exp
                 (Fin (dataWeight now getTime ws) * ln_guard wk
                  + (Fin 1 - Fin (dataWeight now getTime ws))
                    * ln_guard
                        (riegelPredict prTime prDist meters (riegelExponent k))))
              (aggregateFitness now getTime ws)
              (Fin (dataWeight now getTime ws))).
Proof.
  intros Hk.
  destruct (typeWeights_plain k Hk) as (s & l & Hw & _).
  unfold blendPredictions, workoutTimeForDistance.
  rewrite Hw; cbv zeta.
  eexists; split; [reflexivity |].
  rewrite blend_dataWt_dataWeight; reflexivity.
Qed.

End BlendWeight.

(** ** Appending a workout *)

Section Append.

Variable now : Z.
Variable getTime : string -> option Z.











End Append.

(** ** The blend weight of [blendPredictions] *)

(** C4.  With no workout the confidence is 0 and the call returns a record
    whose [dataWt] is exactly 0.25, whatever the PR, the target distance and
    the athlete type (any key that names no inherited property). *)
Theorem empty_workouts_dataWt (now : Z) (getTime : string -> option Z)
  (prTime prDist meters : num) (k : string) :
  plainKey k ->
  blend_conf now getTime [] = Fin 0
  /\ exists r : Blend,
       blendPredictions now getTime prTime prDist meters k [] = Normal r
       /\ dataWt r = Fin 0.25.
Proof.
  intros Hk.
  assert (Hc : confidence now getTime [] = 0).
  { unfold confidence, averageWeight; rewrite weightSum_nil; lra. }
  split.
  - rewrite blend_conf_confidence, Hc; reflexivity.
  - destruct (blendPredictions_plain now getTime prTime prDist meters k [] Hk)
      as (wk & _ & ->).
    eexists; split; [reflexivity |].
    cbn [dataWt]; f_equal; unfold dataWeight; rewrite Hc; lra.
Qed.

Lemma empty_workouts_dataWt_witness :
  exists r : Blend,
    blendPredictions Sample.noon Calendar.isoDate (Fin 240) (Fin 1500)
      (Fin 1609) "1500/miler" [] = Normal r
    /\ dataWt r = Fin 0.25.
Proof.
  apply (empty_workouts_dataWt Sample.noon Calendar.isoDate (Fin 240)
           (Fin 1500) (Fin 1609) "1500/miler").
  reflexivity.
Defined.














(** ** What the blend weight depends on *)

Lemma weightSum_dates now getTime ws a :
  fold_left (fun s w => s + weight now getTime (date w)) ws a
  = fold_left (fun s d => s + weight now getTime d) (map date ws) a.
Proof.
  revert a; induction ws as [| w ws IH]; intros a; simpl; [reflexivity |].
  apply IH.
Qed.








(** ** The rep count *)

Section RepCount.

Variable now : Z.
Variable getTime : string -> option Z.

Lemma proxiesFromWorkout_reps w1 w2 :
  sameButReps w1 w2 -> proxiesFromWorkout w1 = proxiesFromWorkout w2.
Proof.
  intros (_ & Hd & Ht & Hr & _); unfold proxiesFromWorkout.
  rewrite Hd, Ht, Hr; reflexivity.
Qed.

Lemma aggregateStep_reps acc w1 w2 :
  sameButReps w1 w2 ->
  aggregateStep now getTime acc w1 = aggregateStep now getTime acc w2.
Proof.
  intros H; unfold aggregateStep.
  rewrite (proxiesFromWorkout_reps w1 w2 H).
  destruct H as (_ & _ & _ & _ & ->); reflexivity.
Qed.

Lemma aggregateFitness_reps ws1 ws2 :
  Forall2 sameButReps ws1 ws2 ->
  aggregateFitness now getTime ws1 = aggregateFitness now getTime ws2.
Proof.
  intros H; unfold aggregateFitness; cbv zeta.
  assert (E : forall acc,
             fold_left (aggregateStep now getTime) ws1 acc
             = fold_left (aggregateStep now getTime) ws2 acc).
  { induction H as [| w1 w2 l1 l2 Hw _ IH]; intros acc; cbn [fold_left].
    - reflexivity.
    - rewrite (aggregateStep_reps acc w1 w2 Hw); apply IH. }
  rewrite E; reflexivity.
Qed.

Lemma dates_reps ws1 ws2 :
  Forall2 sameButReps ws1 ws2 -> map date ws1 = map date ws2.
Proof.
  induction 1 as [| w1 w2 l1 l2 Hw _ IH]; cbn [map]; [reflexivity |].
  destruct Hw as (_ & _ & _ & _ & ->); rewrite IH; reflexivity.
Qed.

Lemma blend_conf_dates ws1 ws2 :
  map date ws1 = map date ws2 ->
  blend_conf now getTime ws1 = blend_conf now getTime ws2.
Proof.
  intros H; rewrite !blend_conf_confidence.
  unfold confidence, averageWeight, weightSum.
  rewrite !weightSum_dates, H.
  rewrite <- (length_map date ws1), <- (length_map date ws2), H.
  reflexivity.
Qed.

End RepCount.

(** C9.  Two runs on workout lists that differ only in the rep counts of
    their entries return the same thing: the same [base], [wkt], [tBlend],
    [fitness] and [dataWt], for every PR, target distance and type key. *)
Theorem reps_noninterference (now : Z) (getTime : string -> option Z)
  (prTime prDist meters : num) (k : string) (ws1 ws2 : list Workout) :
  Forall2 sameButReps ws1 ws2 ->
  blendPredictions now getTime prTime prDist meters k ws1
  = blendPredictions now getTime prTime prDist meters k ws2.
Proof.
  intros H; unfold blendPredictions; cbv zeta.
  rewrite (aggregateFitness_reps now getTime ws1 ws2 H).
  rewrite (blend_conf_dates now getTime ws1 ws2 (dates_reps ws1 ws2 H)).
  reflexivity.
Qed.

Lemma reps_noninterference_witness :
  blendPredictions Sample.noon Calendar.isoDate (Fin 240) (Fin 1500)
    (Fin 1609) "1500/miler"
    [mkWorkout "w" (Fin 4) (Fin 400) "65.0" (Fin 60) "2026-11-01"]
  = blendPredictions Sample.noon Calendar.isoDate (Fin 240) (Fin 1500)
      (Fin 1609) "1500/miler"
      [mkWorkout "w" (Fin 12) (Fin 400) "65.0" (Fin 60) "2026-11-01"].
Proof.
  apply reps_noninterference.
  constructor; [| constructor].
  repeat split.
Defined.

(** ** The geometric blend *)






(** ** The workout curve *)






(** ** Proxies of one workout *)

(** C6.  A workout with a rep time that parses to a positive number of
    seconds and with a positive rep distance [d] yields a MAS proxy exactly
    when [d <= 600], a threshold proxy exactly when [d >= 800] and an ASR
    proxy exactly when [300 <= d <= 500]: a 400 m rep yields the MAS and ASR
    proxies and no threshold proxy, a 1000 m rep the threshold proxy only. *)
Theorem proxy_bands (w : Workout) (r d : R) :
  parseTimeToSeconds (repTimeStr w) = Fin r -> 0 < r ->
  repDistanceM w = Fin d -> 0 < d ->
  exists p : Proxies,
    proxiesFromWorkout w = Some p
    /\ (masProxy p <> None <-> d <= 600)
    /\ (tProxy p <> None <-> 800 <= d)
    /\ (asrProxy p <> None <-> 300 <= d <= 500)
    /\ (d = 400 ->
        masProxy p <> None /\ asrProxy p <> None /\ tProxy p = None)
    /\ (d = 1000 ->
        tProxy p <> None /\ masProxy p = None /\ asrProxy p = None).
Proof.
  intros Ht Hr Hd Hpos.
  unfold proxiesFromWorkout; rewrite Ht, Hd.
  cbn [isFinite negb orb]; rewrite (le_Fin_gt r 0 Hr); cbv zeta.
  eexists; split; [reflexivity |].
  cbn [masProxy tProxy asrProxy]; unfold ge; cbn [le].
  destruct (Rle_dec d 600) as [H6 | H6], (Rle_dec 800 d) as [H8 | H8],
           (Rle_dec 300 d) as [H3 | H3], (Rle_dec d 500) as [H5 | H5];
    cbn [andb];
    repeat split; intros;
    try discriminate; try reflexivity;
    try (match goal with H : ?x <> ?x |- _ => elim H; reflexivity end);
    try (subst d; exfalso; lra); try lra.
Qed.

Lemma sample_rep_time : parseTimeToSeconds (repTimeStr Sample.today) = Fin 65.
Proof.
  change (parseTimeToSeconds (repTimeStr Sample.today))
    with (Fin (IZR 650 * powerRZ 10 (-1))).
  f_equal; simpl; lra.
Qed.

Lemma proxy_bands_witness :
  exists p : Proxies,
    proxiesFromWorkout Sample.today = Some p
    /\ masProxy p <> None /\ asrProxy p <> None /\ tProxy p = None.
Proof.
  destruct (proxy_bands Sample.today 65 400) as (p & Hp & _ & _ & _ & H400 & _).
  - exact sample_rep_time.
  - lra.
  - reflexivity.
  - lra.
  - exists p; split; [exact Hp | apply H400; reflexivity].
Defined.

(** ** The fitness snapshot *)

Lemma or_else_zero x : or_else (Fin x) (Fin 0) = Fin x.
Proof.
  unfold or_else, truthy; destruct (Req_dec_T x 0) as [-> | _]; reflexivity.
Qed.

Lemma Rdiv_nonneg x y : 0 <= x -> 0 < y -> 0 <= x / y.
Proof.
  intros Hx Hy; apply Rmult_le_pos; [assumption |].
  left; apply Rinv_0_lt_compat; assumption.
Qed.









(** ** Results of [blendPredictions] *)




(** Every property name of [Object.prototype] makes the call throw. *)
Lemma blendPredictions_inherited_throws (now : Z)
  (getTime : string -> option Z) (prTime prDist meters : num) (k : string)
  (ws : list Workout) :
  In k objectPrototypeKeys ->
  blendPredictions now getTime prTime prDist meters k ws = Throw TypeError.
Proof.
  unfold objectPrototypeKeys; simpl; intros H.
  repeat (destruct H as [<- | H]; [reflexivity |]); contradiction.
Qed.

(** C5, at the failing input.  The type key ["constructor"] is in neither
    table, yet [TYPE_WEIGHTS["constructor"]] is not [undefined]: it is the
    inherited constructor, so the fallback pair is not used and the array
    pattern throws.  The call returns no times at all. *)
Theorem blendPredictions_constructor_throws (now : Z)
  (getTime : string -> option Z) (prTime prDist meters : num)
  (ws : list Workout) :
  own TYPE_WEIGHTS "constructor" = None
  /\ own RIEGEL_BY_TYPE "constructor" = None
  /\ blendPredictions now getTime prTime prDist meters "constructor" ws
     = Throw TypeError.
Proof. repeat split. Qed.



(** ** Parsing a duration *)

Lemma or_else_not_NaN a : or_else a (Fin 0) <> NaN.
Proof.
  unfold or_else; destruct a as [| | | x]; cbn; try discriminate.
  destruct (Req_dec_T x 0); discriminate.
Qed.

Lemma zero_minutes_add a :
  a <> NaN -> (or_else NaN (Fin 0) * Fin 60 + a)%num = a.
Proof.
  intros Ha; unfold or_else; cbn [truthy].
  destruct a as [| | | x]; [contradiction | reflexivity | reflexivity |].
  fin_arith; f_equal; ring.
Qed.

Lemma add_zero_seconds a :
  a <> NaN -> (a + or_else NaN (Fin 0))%num = a.
Proof.
  intros Ha; unfold or_else; cbn [truthy].
  destruct a as [| | | x]; [contradiction | reflexivity | reflexivity |].
  fin_arith; f_equal; ring.
Qed.

Lemma minutes_not_NaN a : (or_else a (Fin 0) * Fin 60)%num <> NaN.
Proof.
  unfold or_else; destruct a as [| | | x]; cbn [truthy].
  - cbn; discriminate.
  - cbn; rewrite sgn_pos by lra; discriminate.
  - cbn; rewrite sgn_pos by lra; discriminate.
  - destruct (Req_dec_T x 0); cbn; discriminate.
Qed.

(** A segment that begins with a character no number begins with is not a
    number for [parseFloat]. *)
Lemma parseFloat_not_a_number c rest :
  isWhiteSpace c = false -> startsNumber c = false ->
  parseFloat (String c rest) = NaN.
Proof.
  intros Hws Hst; unfold parseFloat, scanFloat.
  cbn [trimStart]; rewrite Hws.
  unfold startsNumber in Hst.
  destruct (digit c) eqn:Hd; [discriminate |].
  repeat (apply orb_false_elim in Hst; destruct Hst as [Hst ?]).
  assert (Hsign : sign (String c rest) = (1%Z, String c rest)).
  { unfold sign.
    destruct c as [[] [] [] [] [] [] [] []]; try reflexivity; discriminate. }
  rewrite Hsign.
  assert (Hinf : prefix "Infinity" (String c rest) = false).
  { cbn [prefix].
    destruct (ascii_dec "I" c) as [<- | Hne]; [discriminate | reflexivity]. }
  rewrite Hinf; cbn [digits]; rewrite Hd.
  destruct c as [[] [] [] [] [] [] [] []]; try reflexivity; discriminate.
Qed.

(** C2, as amended.  The parser never throws.  The empty string, a single
    segment that is not a number, and more than three segments give [NaN].
    With two or three segments a segment that is not a number is read as 0
    and the result is not [NaN]: with two segments, a non-numeric minutes
    segment leaves the seconds, a non-numeric seconds segment leaves the
    minutes times 60; three non-numeric segments give 0. *)
Theorem parseTimeToSeconds_nan (str : string) :
  parseTimeToSeconds "" = NaN
  /\ (forall p : string,
        split ":" (trim str) = [p] -> parseFloat p = NaN ->
        parseTimeToSeconds str = NaN)
  /\ ((3 < List.length (split ":" (trim str)))%nat ->
      parseTimeToSeconds str = NaN)
  /\ (forall m s : string,
        str <> EmptyString -> split ":" (trim str) = [m; s] ->
        (parseInt m = NaN ->
         parseTimeToSeconds str = or_else (parseFloat s) (Fin 0)
         /\ parseTimeToSeconds str <> NaN)
        /\ (parseFloat s = NaN ->
            parseTimeToSeconds str = (or_else (parseInt m) (Fin 0) * Fin 60)%num
            /\ parseTimeToSeconds str <> NaN))
  /\ (forall h m s : string,
        str <> EmptyString -> split ":" (trim str) = [h; m; s] ->
        parseInt h = NaN -> parseInt m = NaN -> parseFloat s = NaN ->
        parseTimeToSeconds str = Fin 0).
Proof.
  split; [reflexivity |].
  split.
  { intros p Hs Hp; unfold parseTimeToSeconds.
    destruct str; [reflexivity |]; rewrite Hs; exact Hp. }
  split.
  { intros Hlen; unfold parseTimeToSeconds.
    destruct str; [reflexivity |].
    destruct (split ":" (trim _)) as [| p1 [| p2 [| p3 [| p4 l]]]];
      cbn [List.length] in Hlen; try lia; reflexivity. }
  split.
  { intros m s Hne Hs.
    assert (E : parseTimeToSeconds str
                = (or_else (parseInt m) (Fin 0) * Fin 60
                   + or_else (parseFloat s) (Fin 0))%num).
    { unfold parseTimeToSeconds; destruct str; [contradiction |].
      rewrite Hs; reflexivity. }
    rewrite E; split; intros H; rewrite H.
    - rewrite zero_minutes_add by apply or_else_not_NaN.
      split; [reflexivity | apply or_else_not_NaN].
    - rewrite add_zero_seconds by apply minutes_not_NaN.
      split; [reflexivity | apply minutes_not_NaN]. }
  intros h m s Hne Hs Hh Hm Hsec.
  unfold parseTimeToSeconds; destruct str; [contradiction |].
  rewrite Hs, Hh, Hm, Hsec.
  unfold or_else; cbn [truthy]; fin_arith; f_equal; ring.
Qed.

Lemma parseTimeToSeconds_nan_witness :
  parseTimeToSeconds "fast" = NaN
  /\ parseTimeToSeconds "1:2:3:4" = NaN
  /\ parseTimeToSeconds "abc:45.5" = or_else (parseFloat "45.5") (Fin 0)
  /\ parseTimeToSeconds "x:y:z" = Fin 0.
Proof.
  split.
  { destruct (parseTimeToSeconds_nan "fast") as (_ & H & _).
    apply (H "fast"%string); reflexivity. }
  split.
  { destruct (parseTimeToSeconds_nan "1:2:3:4") as (_ & _ & H & _).
    apply H; cbn; lia. }
  split.
  { destruct (parseTimeToSeconds_nan "abc:45.5") as (_ & _ & _ & H & _).
    destruct (H "abc"%string "45.5"%string) as [Hm _];
      [discriminate | reflexivity |].
    apply Hm; reflexivity. }
  destruct (parseTimeToSeconds_nan "x:y:z") as (_ & _ & _ & _ & H).
  apply (H "x"%string "y"%string "z"%string);
    [discriminate | reflexivity ..].
Defined.

(** C2 as stated fails: both segments of ["abc:def"] are non-numeric, and
    the result is the number 0; the non-numeric seconds of ["1:xx"] leave
    60. *)
Lemma nonnumeric_segments_give_a_number :
  parseInt "abc" = NaN /\ parseFloat "def" = NaN
  /\ parseTimeToSeconds "abc:def" = Fin 0
  /\ parseFloat "xx" = NaN
  /\ parseTimeToSeconds "1:xx" = Fin 60
  /\ parseTimeToSeconds "x:y:z" = Fin 0.
Proof.
  split; [reflexivity |]. split; [reflexivity |].
  split.
  { change (parseTimeToSeconds "abc:def")
      with (or_else NaN (Fin 0) * Fin 60 + or_else NaN (Fin 0))%num.
    unfold or_else; cbn [truthy]; fin_arith; f_equal; ring. }
  split; [reflexivity |].
  split.
  { change (parseTimeToSeconds "1:xx")
      with (or_else (Fin (IZR 1 * powerRZ 10 0)) (Fin 0) * Fin 60
            + or_else NaN (Fin 0))%num.
    unfold or_else, truthy.
    destruct (Req_dec_T (IZR 1 * powerRZ 10 0) 0) as [H | _];
      [simpl in H; lra |].
    fin_arith; f_equal; simpl; ring. }
  change (parseTimeToSeconds "x:y:z")
    with (or_else NaN (Fin 0) * Fin 3600 + or_else NaN (Fin 0) * Fin 60
          + or_else NaN (Fin 0))%num.
  unfold or_else; cbn [truthy]; fin_arith; f_equal; ring.
Qed.

(** * Further properties of the core *)

(** ** [clamp] *)

(** X1.  [clamp(x, a, b)] with [a <= b] returns a value of [[a, b]], [x]
    itself when [x] is already there; with the bounds inverted it returns
    the upper bound [b]; and it does not guard against [NaN], which it
    returns for a [NaN] argument whatever the bounds. *)
Theorem clamp_bounds (x a b : R) :
  (a <= b ->
   exists y : R,
     clamp (Fin x) (Fin a) (Fin b) = Fin y /\ a <= y <= b
     /\ (a <= x <= b -> y = x))
  /\ (b < a -> clamp (Fin x) (Fin a) (Fin b) = Fin b)
  /\ (forall lo hi : num, clamp NaN lo hi = NaN).
Proof.
  split; [| split].
  - intros Hab; exists (Rmin b (Rmax a x)).
    split; [apply clamp_Fin |].
    split.
    + split.
      * apply Rmin_glb; [exact Hab | apply Rmax_l].
      * apply Rmin_l.
    + intros [Hax Hxb].
      rewrite (Rmax_right a x Hax); apply Rmin_right; exact Hxb.
  - intros Hba; rewrite clamp_Fin; f_equal.
    apply Rmin_left.
    apply Rle_trans with a; [lra | apply Rmax_l].
  - intros lo hi; unfold clamp.
    destruct lo, hi; reflexivity.
Qed.

Lemma clamp_bounds_witness :
  exists y : R,
    clamp (Fin 1.3) (Fin 0) (Fin 0.9) = Fin y /\ 0 <= y <= 0.9.
Proof.
  destruct (clamp_bounds 1.3 0 0.9) as (H & _ & _).
  destruct H as (y & Hy & Hr & _); [lra |].
  exists y; split; assumption.
Defined.

(** ** The Riegel baseline, continued *)







(** ** Recency weights, continued *)






(** ** The blend weight, continued *)





Lemma inherited_In k : inherited k = true -> In k objectPrototypeKeys.
Proof.
  unfold inherited; intros H.
  apply existsb_exists in H; destruct H as (k' & Hin & E).
  apply String.eqb_eq in E; subst k'; exact Hin.
Qed.

(** X7.  [blendPredictions] throws exactly on the type keys that name a
    property of [Object.prototype], whatever the other arguments; on every
    other key it returns a record. *)
Theorem blendPredictions_throws_iff (now : Z) (getTime : string -> option Z)
  (prTime prDist meters : num) (k : string) (ws : list Workout) :
  (blendPredictions now getTime prTime prDist meters k ws = Throw TypeError
   <-> inherited k = true)
  /\ ((exists r : Blend,
         blendPredictions now getTime prTime prDist meters k ws = Normal r)
      <-> inherited k = false).
Proof.
  destruct (inherited k) eqn:Hk.
  - pose proof (blendPredictions_inherited_throws now getTime prTime prDist
                  meters k ws (inherited_In k Hk)) as Ht.
    split; split; try (intros _; assumption || reflexivity).
    + intros (r & Hr); rewrite Ht in Hr; discriminate.
    + discriminate.
  - destruct (blendPredictions_plain now getTime prTime prDist meters k ws Hk)
      as (wk & _ & Hr).
    split; split; try discriminate.
    + intros Ht; rewrite Hr in Ht; discriminate.
    + intros _; reflexivity.
    + intros _; eexists; exact Hr.
Qed.




Lemma blendPredictions_throws_iff_witness :
  blendPredictions Sample.noon Calendar.isoDate (Fin 240) (Fin 1500)
    (Fin 1609) "valueOf" [] = Throw TypeError.
Proof. apply blendPredictions_throws_iff; reflexivity. Defined.

(** ** The workout curve, continued *)












(** ** Proxies and the snapshot, continued *)














(** * The application around the core *)

(** ** Editing the workout list *)





Lemma updateWorkout_reps i n ws :
  Forall2 sameButReps ws (updateWorkout i (repsPatch n) ws).
Proof.
  induction ws as [| w l IH]; [constructor |].
  cbn [updateWorkout map]; constructor; [| exact IH].
  destruct (String.eqb (id w) i); repeat split.
Qed.

(** X17.  Editing a rep count changes no prediction: after
    [updateWorkout(id, {reps: n})], [blendPredictions] returns what it
    returned before, for every PR, target distance and type key. *)
Theorem edit_reps_keeps_predictions (now : Z) (getTime : string -> option Z)
  (prTime prDist meters : num) (k : string) (ws : list Workout)
  (i : string) (n : num) :
  blendPredictions now getTime prTime prDist meters k
    (updateWorkout i (repsPatch n) ws)
  = blendPredictions now getTime prTime prDist meters k ws.
Proof.
  pose proof (updateWorkout_reps i n ws) as H.
  unfold blendPredictions; cbv zeta.
  rewrite <- (aggregateFitness_reps now getTime _ _ H).
  rewrite <- (blend_conf_dates now getTime _ _ (dates_reps _ _ H)).
  reflexivity.
Qed.

(** ** The predictions table *)


Lemma mapEvents_plain now getTime tPR d k ws evs :
  plainKey k ->
  exists ps : list Prediction.t,
    mapEvents (fun m => blendPredictions now getTime tPR d (Fin m) k ws) evs
    = Normal ps
    /\ map Prediction.event ps = map fst evs
    /\ Forall2
         (fun (ev : string * R) (p : Prediction.t) =>
            exists r : Blend,
              blendPredictions now getTime tPR d (Fin (snd ev)) k ws = Normal r
              /\ p = Prediction.mk (fst ev) (base r) (wkt r) (tBlend r))
         evs ps.
Proof.
  intros Hk; induction evs as [| [key m] rest IH].
  - exists []; repeat split; constructor.
  - destruct IH as (ps & Hps & Hev & Hall).
    destruct (blendPredictions_plain now getTime tPR d (Fin m) k ws Hk)
      as (wk & _ & Hr).
    cbn [mapEvents]; rewrite Hr, Hps.
    eexists; split; [reflexivity |].
    split; [cbn [map Prediction.event fst]; rewrite Hev; reflexivity |].
    constructor; [| exact Hall].
    eexists; split; [exact Hr | reflexivity].
Qed.

(** X18.  On a type key that names no inherited property the predictions
    table is computed without an exception; it is empty exactly when the PR
    time string does not parse to a finite number, and otherwise holds one
    row per event, the nine events in their fixed order. *)
Theorem predictions_rows (now : Z) (getTime : string -> option Z)
  (prTime prEvent k : string) (ws : list Workout) :
  plainKey k ->
  exists ps : list Prediction.t,
    predictions now getTime prTime prEvent k ws = Normal ps
    /\ (isFinite (parseTimeToSeconds prTime) = false -> ps = [])
    /\ (isFinite (parseTimeToSeconds prTime) = true ->
        map Prediction.event ps
        = ["400"; "800"; "1500"; "mile"; "3000"; "5000"; "10000"; "half";
           "marathon"]%string).
Proof.
  intros Hk; unfold predictions; cbv zeta.
  destruct (isFinite (parseTimeToSeconds prTime)) eqn:Hf; cbn [negb].
  - destruct (mapEvents_plain now getTime (parseTimeToSeconds prTime)
                (Fin (prMeters prEvent)) k ws EVENTS Hk) as (ps & Hps & Hev & _).
    exists ps; split; [exact Hps |].
    split; [discriminate | intros _; exact Hev].
  - exists []; split; [reflexivity |].
    split; [reflexivity | discriminate].
Qed.

Lemma predictions_rows_witness :
  exists ps : list Prediction.t,
    predictions Sample.noon Calendar.isoDate "n/a" "1500" "1500/miler" []
    = Normal ps
    /\ ps = [].
Proof.
  destruct (predictions_rows Sample.noon Calendar.isoDate "n/a" "1500"
              "1500/miler" []) as (ps & Hps & Hnil & _); [reflexivity |].
  exists ps; split; [exact Hps | apply Hnil; reflexivity].
Defined.





(** X25.  The predictions table throws exactly when the PR time parses to
    a finite number and the type key names a property of
    [Object.prototype]; with a PR time that is not a finite number no
    prediction is attempted and the table is empty whatever the key. *)
Theorem predictions_throws_iff (now : Z) (getTime : string -> option Z)
  (prTime prEvent k : string) (ws : list Workout) :
  (predictions now getTime prTime prEvent k ws = Throw TypeError
   <-> isFinite (parseTimeToSeconds prTime) = true /\ inherited k = true)
  /\ (isFinite (parseTimeToSeconds prTime) = false ->
      predictions now getTime prTime prEvent k ws = Normal []).
Proof.
  unfold predictions; cbv zeta.
  destruct (isFinite (parseTimeToSeconds prTime)) eqn:Hf; cbn [negb].
  - split; [| discriminate].
    destruct (inherited k) eqn:Hk.
    + split; [intros _; split; reflexivity | intros _].
      unfold EVENTS; cbn [mapEvents].
      rewrite (blendPredictions_inherited_throws now getTime _ _ _ k ws
                 (inherited_In k Hk)).
      reflexivity.
    + destruct (mapEvents_plain now getTime (parseTimeToSeconds prTime)
                  (Fin (prMeters prEvent)) k ws EVENTS Hk) as (ps & -> & _).
      split; [discriminate | intros [_ H]; discriminate].
  - split; [| reflexivity].
    split; [discriminate | intros [H _]; discriminate].
Qed.

Lemma predictions_throws_iff_witness :
  predictions Sample.noon Calendar.isoDate "240" "1500" "toString" []
  = Throw TypeError.
Proof.
  apply predictions_throws_iff; split; reflexivity.
Defined.

(** * Printing and reading durations *)

(** ** Rendering digits and reading them back *)

Section Digits.

Local Open Scope Z_scope.

Lemma mod10_digit n : 0 <= n mod 10 <= 9.
Proof. pose proof (Z.mod_pos_bound n 10 ltac:(lia)); lia. Qed.

Lemma digit_digitChar d : 0 <= d <= 9 -> digit (digitChar d) = Some d.
Proof.
  intros H.
  assert (E : d = 0 \/ d = 1 \/ d = 2 \/ d = 3 \/ d = 4 \/ d = 5 \/ d = 6
              \/ d = 7 \/ d = 8 \/ d = 9) by lia.
  repeat (destruct E as [-> | E]; [reflexivity |]); subst d; reflexivity.
Qed.

Lemma isDigit_digitChar d : 0 <= d <= 9 -> isDigit (digitChar d) = true.
Proof. intros H; unfold isDigit; rewrite (digit_digitChar d H); reflexivity. Qed.

Lemma renderDigits_S f n s :
  renderDigits (S f) n s
  = if n <? 10 then String (digitChar (n mod 10)) s
    else renderDigits f (n / 10) (String (digitChar (n mod 10)) s).
Proof. reflexivity. Qed.

Lemma renderDigits_app f n s s' :
  (renderDigits f n s ++ s')%string = renderDigits f n (s ++ s').
Proof.
  revert n s; induction f as [| f IH]; intros n s; cbn [renderDigits];
    [reflexivity |].
  destruct (n <? 10); [reflexivity | apply IH].
Qed.

(** Reading back what was rendered: the digits of [n] in front of [s] are
    read as [n] appended to whatever had been read. *)
Lemma digits_renderDigits f n :
  0 <= n < 10 ^ Z.of_nat (S f) ->
  exists (j : nat) (p : Z),
    (0 < j)%nat
    /\ forall s a k,
         digits (renderDigits (S f) n s) a k
         = digits s (a * p + n) (k + j)%nat.
Proof.
  revert n; induction f as [| f IH]; intros n Hn.
  - change (10 ^ Z.of_nat 1) with 10 in Hn.
    exists 1%nat, 10; split; [lia |].
    intros s a k; cbn [renderDigits].
    destruct (n <? 10) eqn:E; [| apply Z.ltb_ge in E; lia].
    cbn [digits]; rewrite digit_digitChar by (apply mod10_digit).
    rewrite Z.mod_small by lia.
    f_equal; lia.
  - destruct (n <? 10) eqn:E.
    + apply Z.ltb_lt in E.
      exists 1%nat, 10; split; [lia |].
      intros s a k; rewrite renderDigits_S, (proj2 (Z.ltb_lt n 10) E).
      cbn [digits]; rewrite digit_digitChar by (apply mod10_digit).
      rewrite Z.mod_small by lia.
      f_equal; lia.
    + apply Z.ltb_ge in E.
      destruct (IH (n / 10)) as (j & p & Hj & H).
      { split; [apply Z.div_pos; lia |].
        apply Z.div_lt_upper_bound; [lia |].
        replace (Z.of_nat (S (S f))) with (Z.succ (Z.of_nat (S f))) in Hn
          by lia.
        rewrite Z.pow_succ_r in Hn by lia; lia. }
      exists (S j), (10 * p); split; [lia |].
      intros s a k.
      rewrite renderDigits_S, (proj2 (Z.ltb_ge n 10) E).
      rewrite (H (String (digitChar (n mod 10)) s) a k).
      cbn [digits]; rewrite digit_digitChar by (apply mod10_digit).
      pose proof (Z.div_mod n 10 ltac:(lia)) as Hdm.
      f_equal; lia.
Qed.

Lemma renderNat_fuel n :
  0 <= n -> n < 10 ^ Z.of_nat (S (Z.to_nat (Z.log2 n))).
Proof.
  intros Hn.
  destruct (Z.eq_dec n 0) as [-> | Hne]; [reflexivity |].
  assert (Hpos : 0 < n) by lia.
  pose proof (Z.log2_spec n Hpos) as [_ Hlt].
  pose proof (Z.log2_nonneg n) as Hl.
  replace (Z.of_nat (S (Z.to_nat (Z.log2 n)))) with (Z.succ (Z.log2 n)) by lia.
  apply Z.lt_le_trans with (2 ^ Z.succ (Z.log2 n)); [exact Hlt |].
  apply Z.pow_le_mono_l; lia.
Qed.

Lemma digits_renderNat n :
  0 <= n ->
  exists (j : nat) (p : Z),
    (0 < j)%nat
    /\ forall s a k,
         digits (renderNat n ++ s) a k = digits s (a * p + n) (k + j)%nat.
Proof.
  intros Hn; unfold renderNat.
  destruct (digits_renderDigits (Z.to_nat (Z.log2 n)) n) as (j & p & Hj & H).
  { split; [exact Hn | apply renderNat_fuel; exact Hn]. }
  exists j, p; split; [exact Hj |].
  intros s a k; rewrite renderDigits_app; apply H.
Qed.

Lemma renderDigits_head f n s :
  0 <= n ->
  exists c r, renderDigits (S f) n s = String c r /\ isDigit c = true.
Proof.
  revert n s; induction f as [| f IH]; intros n s Hn; rewrite renderDigits_S.
  - destruct (n <? 10); eexists; eexists;
      (split; [reflexivity | apply isDigit_digitChar, mod10_digit]).
  - destruct (n <? 10).
    + eexists; eexists;
        (split; [reflexivity | apply isDigit_digitChar, mod10_digit]).
    + apply IH, Z.div_pos; lia.
Qed.

Lemma allChars_renderDigits P f n s :
  (forall d, 0 <= d <= 9 -> P (digitChar d) = true) ->
  allChars P s = true -> allChars P (renderDigits f n s) = true.
Proof.
  intros HP; revert n s; induction f as [| f IH]; intros n s Hs;
    cbn [renderDigits]; [exact Hs |].
  assert (Hacc : allChars P (String (digitChar (n mod 10)) s) = true).
  { cbn [allChars]; rewrite HP by (apply mod10_digit); exact Hs. }
  destruct (n <? 10); [exact Hacc | apply IH; exact Hacc].
Qed.

Lemma renderNat_small n :
  0 <= n <= 9 -> renderNat n = String (digitChar n) EmptyString.
Proof.
  intros H; unfold renderNat; cbn [renderDigits].
  destruct (n <? 10) eqn:E; [| apply Z.ltb_ge in E; lia].
  rewrite Z.mod_small by lia; reflexivity.
Qed.

End Digits.

(** ** Trimming, splitting and scanning printed fields *)

Ltac by_cases_on_char c :=
  destruct c as [[] [] [] [] [] [] [] []]; try reflexivity; try discriminate.

Lemma fieldChar_notWhite c : fieldChar c = true -> notWhite c = true.
Proof. by_cases_on_char c. Qed.

Lemma fieldChar_notColon c : fieldChar c = true -> notColon c = true.
Proof. by_cases_on_char c. Qed.

Lemma isDigit_fieldChar c : isDigit c = true -> fieldChar c = true.
Proof. intros H; unfold fieldChar; rewrite H; reflexivity. Qed.

Lemma isDigit_notWhite c : isDigit c = true -> isWhiteSpace c = false.
Proof. by_cases_on_char c. Qed.

Lemma sign_digit c r : isDigit c = true -> sign (String c r) = (1%Z, String c r).
Proof. by_cases_on_char c. Qed.

Lemma prefix_Infinity_digit c r :
  isDigit c = true -> prefix "Infinity" (String c r) = false.
Proof. by_cases_on_char c. Qed.

Lemma append_empty_r s : (s ++ "")%string = s.
Proof. induction s as [| c s IH]; cbn [append]; [| rewrite IH]; reflexivity. Qed.

Lemma append_assoc_string (a b c : string) :
  ((a ++ b) ++ c)%string = (a ++ (b ++ c))%string.
Proof. induction a as [| x a IH]; cbn [append]; [| rewrite IH]; reflexivity. Qed.

Lemma allChars_app P s s' :
  allChars P (s ++ s') = allChars P s && allChars P s'.
Proof.
  induction s as [| c s IH]; cbn [append allChars]; [reflexivity |].
  rewrite IH, andb_assoc; reflexivity.
Qed.

Lemma allChars_impl (P Q : ascii -> bool) s :
  (forall c, P c = true -> Q c = true) ->
  allChars P s = true -> allChars Q s = true.
Proof.
  intros H; induction s as [| c s IH]; cbn [allChars]; [reflexivity |].
  intros E; apply andb_prop in E; destruct E as [Ec Es].
  rewrite (H c Ec), (IH Es); reflexivity.
Qed.

Lemma trimEnd_id s : allChars notWhite s = true -> trimEnd s = s.
Proof.
  induction s as [| c s IH]; cbn [allChars trimEnd]; [reflexivity |].
  intros E; apply andb_prop in E; destruct E as [Ec Es].
  rewrite (IH Es).
  destruct s; [| reflexivity].
  unfold notWhite in Ec; apply negb_true_iff in Ec; rewrite Ec; reflexivity.
Qed.

Lemma trim_id s : allChars notWhite s = true -> trim s = s.
Proof.
  intros H; unfold trim.
  assert (E : trimStart s = s).
  { destruct s as [| c s]; [reflexivity |].
    cbn [allChars] in H; apply andb_prop in H; destruct H as [Hc _].
    unfold notWhite in Hc; apply negb_true_iff in Hc.
    cbn [trimStart]; rewrite Hc; reflexivity. }
  rewrite E; apply trimEnd_id; exact H.
Qed.

Lemma split_nocolon s : allChars notColon s = true -> split ":" s = [s].
Proof.
  induction s as [| c s IH]; cbn [allChars split]; [reflexivity |].
  intros E; apply andb_prop in E; destruct E as [Ec Es].
  unfold notColon in Ec; apply negb_true_iff in Ec; rewrite Ec.
  rewrite (IH Es); reflexivity.
Qed.

Lemma split_colon a r :
  allChars notColon a = true ->
  split ":" (a ++ String ":" r) = a :: split ":" r.
Proof.
  induction a as [| c a IH]; cbn [allChars append split].
  - intros _; reflexivity.
  - intros E; apply andb_prop in E; destruct E as [Ec Ea].
    unfold notColon in Ec; apply negb_true_iff in Ec; rewrite Ec.
    rewrite (IH Ea); reflexivity.
Qed.

Lemma allChars_zeros P j s :
  P "0"%char = true -> allChars P s = true -> allChars P (zeros j s) = true.
Proof.
  intros H0 Hs; induction j as [| j IH]; cbn [zeros allChars]; [exact Hs |].
  rewrite H0, IH; reflexivity.
Qed.

Lemma allChars_renderNat n : allChars fieldChar (renderNat n) = true.
Proof.
  unfold renderNat; apply allChars_renderDigits; [| reflexivity].
  intros d Hd; apply isDigit_fieldChar, isDigit_digitChar; exact Hd.
Qed.


Lemma digits_zeros j s k : digits (zeros j s) 0 k = digits s 0 (k + j)%nat.
Proof.
  revert k; induction j as [| j IH]; intros k; cbn [zeros].
  - rewrite Nat.add_0_r; reflexivity.
  - change (digits (String "0" (zeros j s)) 0 k)
      with (digits (zeros j s) 0 (S k)).
    rewrite IH; f_equal; lia.
Qed.

(** A printed natural number, zero-padded or not and whatever follows it,
    begins with a digit. *)
Lemma zeros_renderNat_head j n s :
  (0 <= n)%Z ->
  exists c r, zeros j (renderNat n ++ s) = String c r /\ isDigit c = true.
Proof.
  intros Hn; destruct j as [| j].
  - cbn [zeros]; unfold renderNat; rewrite renderDigits_app.
    apply renderDigits_head; exact Hn.
  - cbn [zeros]; eexists; eexists; split; reflexivity.
Qed.

(** [parseInt] reads a printed natural number back. *)
Lemma parseInt_render j n :
  (0 <= n)%Z -> parseInt (zeros j (renderNat n)) = Fin (IZR n).
Proof.
  intros Hn; unfold parseInt, scanInt.
  destruct (zeros_renderNat_head j n EmptyString Hn) as (c & r & E & Hc).
  rewrite append_empty_r in E.
  rewrite E; cbn [trimStart]; rewrite (isDigit_notWhite c Hc).
  rewrite (sign_digit c r Hc), <- E, digits_zeros.
  destruct (digits_renderNat n Hn) as (j' & p & Hj & H).
  rewrite <- (append_empty_r (renderNat n)), H.
  cbn [digits].
  destruct (0 + j + j')%nat eqn:Ek; [lia |].
  cbn [toNum]; f_equal.
  replace (1 * (0 * p + n))%Z with n by lia.
  simpl powerRZ; ring.
Qed.

(** [parseFloat] reads a printed one-decimal number back. *)
Lemma parseFloat_render j q d :
  (0 <= q)%Z -> (0 <= d <= 9)%Z ->
  parseFloat (zeros j (renderNat q ++ "." ++ renderNat d))
  = Fin (IZR (10 * q + d) / 10).
Proof.
  intros Hq Hd; unfold parseFloat, scanFloat.
  destruct (zeros_renderNat_head j q ("." ++ renderNat d) Hq)
    as (c & r & E & Hc).
  rewrite E; cbn [trimStart]; rewrite (isDigit_notWhite c Hc).
  rewrite (sign_digit c r Hc), (prefix_Infinity_digit c r Hc).
  rewrite <- E, digits_zeros.
  destruct (digits_renderNat q Hq) as (j' & p & Hj & H).
  rewrite H.
  rewrite (renderNat_small d Hd).
  cbn [append digits].
  change (digit ".") with (@None Z); cbv iota beta.
  cbn [digits]; rewrite (digit_digitChar d Hd).
  destruct (0 + j + j' + 1)%nat eqn:Ek; [lia |].
  cbn [exponentPart toNum Z.of_nat]; f_equal.
  replace (1 * (10 * (0 * p + q) + d))%Z with (10 * q + d)%Z by lia.
  change (0 - Z.pos (Pos.of_succ_nat 0))%Z with (-1)%Z.
  simpl powerRZ; field.
Qed.

Lemma parseTimeToSeconds_nonempty str :
  str <> EmptyString ->
  parseTimeToSeconds str
  = match split ":" (trim str) with
    | [p] => parseFloat p
    | [m; s] =>
        (or_else (parseInt m) (Fin 0) * Fin 60
         + or_else (parseFloat s) (Fin 0))%num
    | [h; m; s] =>
        (or_else (parseInt h) (Fin 0) * Fin 3600
         + or_else (parseInt m) (Fin 0) * Fin 60
         + or_else (parseFloat s) (Fin 0))%num
    | _ => NaN
    end.
Proof. destruct str; [contradiction | reflexivity]. Qed.

Lemma seconds_field_chars j q d :
  allChars fieldChar (zeros j (renderNat q ++ "." ++ renderNat d)) = true.
Proof.
  apply allChars_zeros; [reflexivity |].
  rewrite allChars_app, allChars_renderNat.
  cbn [append allChars andb]; rewrite allChars_renderNat; reflexivity.
Qed.


(** Reading back a printed [M:SS.t]. *)
Lemma parse_two_fields m j q d :
  (0 <= m)%Z -> (0 <= q)%Z -> (0 <= d <= 9)%Z ->
  parseTimeToSeconds
    (renderNat m ++ ":" ++ zeros j (renderNat q ++ "." ++ renderNat d))
  = Fin (IZR m * 60 + IZR (10 * q + d) / 10).
Proof.
  intros Hm Hq Hd.
  set (sec := zeros j (renderNat q ++ "." ++ renderNat d)).
  pose proof (seconds_field_chars j q d) as Csec; fold sec in Csec.
  pose proof (allChars_renderNat m) as Cmin.
  rewrite parseTimeToSeconds_nonempty.
  2:{ destruct (zeros_renderNat_head 0 m (":" ++ sec) Hm) as (c & r & E & _).
      cbn [zeros] in E; rewrite E; discriminate. }
  rewrite trim_id.
  2:{ rewrite allChars_app, (allChars_impl _ _ _ fieldChar_notWhite Cmin).
      cbn [append allChars andb].
      rewrite (allChars_impl _ _ _ fieldChar_notWhite Csec); reflexivity. }
  change (":" ++ sec)%string with (String ":" sec).
  rewrite split_colon by (apply (allChars_impl _ _ _ fieldChar_notColon Cmin)).
  rewrite split_nocolon by (apply (allChars_impl _ _ _ fieldChar_notColon Csec)).
  rewrite (parseInt_render 0 m Hm : parseInt (renderNat m) = _).
  unfold sec; rewrite (parseFloat_render j q d Hq Hd).
  rewrite !or_else_zero; fin_arith; reflexivity.
Qed.


(** ** [formatSeconds] *)

Lemma rem_nonneg t y :
  0 <= t -> 0 < y ->
  rem t y = t - y * IZR (Zfloor (t / y)) /\ 0 <= rem t y < y
  /\ (0 <= Zfloor (t / y))%Z.
Proof.
  intros Ht Hy; unfold rem, truncZ.
  pose proof (Rdiv_nonneg t y Ht Hy) as Hq.
  destruct (Rle_dec 0 (t / y)) as [_ | H]; [| contradiction].
  pose proof (Zfloor_bound (t / y)) as [Hlo Hhi].
  split; [reflexivity |].
  assert (E : t = t / y * y) by (field; lra).
  split; [split; nra |].
  apply (Zfloor_lub 0); exact Hq.
Qed.

Lemma renderInt_nonneg n : (0 <= n)%Z -> renderInt n = renderNat n.
Proof.
  intros H; unfold renderInt.
  destruct (n <? 0)%Z eqn:E; [apply Z.ltb_lt in E; lia | reflexivity].
Qed.

(** [toFixed(1)] of a number that is not negative: the tenths [n] closest
    to it, printed as [n / 10], a point and [n mod 10]. *)
Lemma toFixed1_nonneg x :
  0 <= x ->
  exists n : Z,
    n = Zfloor (10 * x + 1 / 2) /\ (0 <= n)%Z
    /\ - (1 / 20) < IZR n / 10 - x <= 1 / 20
    /\ toFixed1 x = (renderNat (n / 10) ++ "." ++ renderNat (n mod 10))%string.
Proof.
  intros Hx; exists (Zfloor (10 * x + 1 / 2)).
  pose proof (Zfloor_bound (10 * x + 1 / 2)) as [Hlo Hhi].
  split; [reflexivity |].
  split; [apply (Zfloor_lub 0); lra |].
  split; [lra |].
  unfold toFixed1; rewrite (Rabs_pos_eq x Hx).
  destruct (Rlt_dec x 0); [lra | reflexivity].
Qed.





(** What is printed below one hour, from the whole minutes [m] and the
    rounded tenths [n] of the rest. *)
Lemma formatSeconds_below_hour t m n :
  0 <= t < 3600 -> IZR m <= t / 60 < IZR m + 1 ->
  IZR n <= 10 * (t - 60 * IZR m) + 1 / 2 < IZR n + 1 ->
  formatSeconds (Fin t)
  = (renderNat m ++ ":"
     ++ padStart 4 (padStart 4 (renderNat (n / 10) ++ "."
                                ++ renderNat (n mod 10))))%string.
Proof.
  intros [H0 H1] Hm Hn.
  destruct (rem_nonneg t 60 H0 ltac:(lra)) as (Erem & Hrem & Hm0).
  rewrite (Zfloor_eq m (t / 60) Hm) in Erem, Hm0.
  destruct (toFixed1_nonneg (rem t 60) (proj1 Hrem)) as (n' & En & _ & _ & Efix).
  rewrite Erem, (Zfloor_eq n _ Hn) in En; subst n'.
  unfold formatSeconds; destruct (Rle_dec 3600 t); [lra |]; cbv zeta.
  rewrite (Zfloor_eq m (t / 60) Hm), (renderInt_nonneg m Hm0), Efix.
  reflexivity.
Qed.

Example formatSeconds_examples :
  formatSeconds (Fin 65) = "1:05.0"%string
  /\ formatSeconds (Fin 239.96) = "3:60.0"%string
  /\ formatSeconds (Fin 0) = "0:00.0"%string
  /\ formatSeconds NaN = placeholder.
Proof.
  split; [| split; [| split; [| reflexivity]]].
  - rewrite (formatSeconds_below_hour 65 1 50); [reflexivity | | |];
      simpl; lra.
  - rewrite (formatSeconds_below_hour 239.96 3 600); [reflexivity | | |];
      simpl; lra.
  - rewrite (formatSeconds_below_hour 0 0 0); [reflexivity | | |];
      simpl; lra.
Qed.



(** X21.  The seconds field can read [60.0]: the rounding of [toFixed(1)]
    is not carried into the minutes.  For [m] whole minutes below an hour
    and a time in the last 0.05 s of that minute, [formatSeconds] prints
    [m] followed by [:60.0] (so 59.97 s prints as [0:60.0]), which reads
    back as [60 m + 60]. *)
Theorem formatSeconds_sixty (t : R) (m : Z) :
  (0 <= m < 60)%Z ->
  IZR m * 60 + 59.95 <= t < IZR m * 60 + 60 ->
  formatSeconds (Fin t) = (renderNat m ++ ":60.0")%string
  /\ parseTimeToSeconds (formatSeconds (Fin t)) = Fin (IZR m * 60 + 60).
Proof.
  intros Hm Ht.
  assert (Hm0 : 0 <= IZR m) by (apply IZR_le; lia).
  assert (Hm60 : IZR m <= 59) by (apply IZR_le; lia).
  assert (H0 : 0 <= t) by lra.
  destruct (rem_nonneg t 60 H0 ltac:(lra)) as (Erem & Hrem & _).
  assert (Efl : Zfloor (t / 60) = m) by (apply Zfloor_eq; split; lra).
  rewrite Efl in Erem.
  destruct (toFixed1_nonneg (rem t 60) (proj1 Hrem)) as (n & En & _ & _ & Efix).
  assert (E600 : n = 600%Z).
  { rewrite En; apply Zfloor_eq; rewrite Erem; split; lra. }
  subst n; rewrite E600 in Efix.
  assert (Efmt : formatSeconds (Fin t) = (renderNat m ++ ":60.0")%string).
  { unfold formatSeconds; destruct (Rle_dec 3600 t); [lra |]; cbv zeta.
    rewrite Efl, (renderInt_nonneg m) by lia.
    rewrite Efix; reflexivity. }
  split; [exact Efmt |].
  rewrite Efmt.
  change (renderNat m ++ ":60.0")%string
    with (renderNat m ++ ":"
          ++ zeros 0 (renderNat 60 ++ "." ++ renderNat 0))%string.
  rewrite parse_two_fields by lia.
  f_equal; simpl; lra.
Qed.

Lemma formatSeconds_sixty_witness :
  formatSeconds (Fin 59.97) = "0:60.0"%string
  /\ parseTimeToSeconds (formatSeconds (Fin 59.97)) = Fin (IZR 0 * 60 + 60).
Proof. apply (formatSeconds_sixty 59.97 0); [lia | simpl; lra]. Defined.



(** * Dates out of the clock *)

Example toISODate_examples :
  toISODate 0 = Some "1970-01-01"%string
  /\ toISODate Sample.noon = Some "2026-11-01"%string
  /\ toISODate (-1) = Some "1969-12-31"%string
  /\ toISODate 951782400000 = Some "2000-02-29"%string
  /\ toISODate 253402300800000 = Some "+010000-01"%string
  /\ toISODate 8640000000000001 = None.
Proof. repeat split; reflexivity. Qed.

Section CivilDates.

Local Open Scope Z_scope.

Lemma allFrom_spec P fuel z :
  allFrom P fuel z = true ->
  forall y, z <= y < z + Z.of_nat fuel -> P y = true.
Proof.
  revert z; induction fuel as [| f IH]; intros z H y Hy; [lia |].
  cbn [allFrom] in H; apply andb_prop in H; destruct H as [Hz Hrest].
  destruct (Z.eq_dec y z) as [-> | Hne]; [exact Hz |].
  apply (IH (z + 1) Hrest); lia.
Qed.

Lemma era_arith doe yoe doy mp :
  0 <= doe < 146097 ->
  yoe = (doe - doe / 1460 + doe / 36524 - doe / 146096) / 365 ->
  doy = doe - (365 * yoe + yoe / 4 - yoe / 100) ->
  mp = (5 * doy + 2) / 153 ->
  0 <= yoe <= 399 /\ 0 <= doy <= 365 /\ 0 <= mp <= 11
  /\ 153 * mp <= 5 * doy + 2 < 153 * mp + 153
  /\ (doy = 365 -> yoe mod 4 = 3 /\ (yoe mod 100 <> 99 \/ yoe = 399)).
Proof. intros H -> -> ->. Z.div_mod_to_equations; lia. Qed.

(** Every day of an era has a valid civil date that converts back. *)
Lemma era_round_trip doe :
  0 <= doe < 146097 -> Civil.dayRoundTrips doe = true.
Proof.
  intros H.
  unfold Civil.dayRoundTrips, Civil.civilOfEra; cbv zeta.
  set (yoe := (doe - doe / 1460 + doe / 36524 - doe / 146096) / 365).
  set (doy := doe - (365 * yoe + yoe / 4 - yoe / 100)).
  set (mp := (5 * doy + 2) / 153).
  destruct (era_arith doe yoe doy mp H eq_refl eq_refl eq_refl)
    as (Hy & Hd & Hm & Hdoy & Hleap).
  assert (Edoy : doe = 365 * yoe + yoe / 4 - yoe / 100 + doy)
    by (unfold doy; lia).
  clearbody mp doy yoe; clear H.
  unfold Calendar.daysFromCivil, Calendar.daysInMonth, Calendar.isLeap;
    cbv zeta.
  assert (Hmp : mp = 0 \/ mp = 1 \/ mp = 2 \/ mp = 3 \/ mp = 4 \/ mp = 5
                \/ mp = 6 \/ mp = 7 \/ mp = 8 \/ mp = 9 \/ mp = 10 \/ mp = 11)
    by lia.
  repeat (destruct Hmp as [-> | Hmp]); try subst mp;
    cbn -[Z.mul Z.add Z.sub Z.div Z.modulo Z.leb Z.eqb Z.ltb];
    repeat match goal with
           | |- context [if ?b then _ else _] => destruct b eqn:?
           end;
    repeat rewrite andb_true_iff; repeat rewrite orb_true_iff;
    rewrite ?Z.eqb_eq, ?Z.leb_le in *;
    Z.div_mod_to_equations; lia.
Qed.

Lemma fields_checked :
  allFrom (Civil.fieldRoundTrips 4) (Z.to_nat 10000) 0 = true
  /\ allFrom (Civil.fieldRoundTrips 2) (Z.to_nat 100) 0 = true.
Proof. split; vm_compute; reflexivity. Qed.

(** Shifting by whole eras. *)
Lemma civilOfEra_shift era doe :
  Civil.civilOfEra era doe
  = let '(y, m, d) := Civil.civilOfEra 0 doe in (y + 400 * era, m, d).
Proof.
  unfold Civil.civilOfEra; cbv zeta.
  match goal with
  | |- context [if ?b then _ else _] => destruct b
  end; f_equal; f_equal; lia.
Qed.

Lemma daysFromCivil_shift y m d e :
  Calendar.daysFromCivil (y + 400 * e) m d
  = Calendar.daysFromCivil y m d + 146097 * e.
Proof.
  unfold Calendar.daysFromCivil; cbv zeta.
  destruct (m <=? 2).
  - replace (y + 400 * e - 1) with (y - 1 + e * 400) by lia.
    rewrite Z.div_add by lia.
    set (q := (y - 1) / 400); Z.div_mod_to_equations; lia.
  - replace (y + 400 * e) with (y + e * 400) by lia.
    rewrite Z.div_add by lia.
    set (q := y / 400); Z.div_mod_to_equations; lia.
Qed.

Lemma daysInMonth_shift y m e :
  Calendar.daysInMonth (y + 400 * e) m = Calendar.daysInMonth y m.
Proof.
  unfold Calendar.daysInMonth, Calendar.isLeap.
  replace ((y + 400 * e) mod 4) with (y mod 4)
    by (replace (y + 400 * e) with (y + (100 * e) * 4) by lia;
        rewrite Z.mod_add by lia; reflexivity).
  replace ((y + 400 * e) mod 100) with (y mod 100)
    by (replace (y + 400 * e) with (y + (4 * e) * 100) by lia;
        rewrite Z.mod_add by lia; reflexivity).
  replace ((y + 400 * e) mod 400) with (y mod 400)
    by (replace (y + 400 * e) with (y + e * 400) by lia;
        rewrite Z.mod_add by lia; reflexivity).
  reflexivity.
Qed.

(** The civil date of any day is a valid date and converts back to it. *)
Lemma civilFromDays_round_trip z :
  let '(y, m, d) := Civil.civilFromDays z in
  Calendar.daysFromCivil y m d = z
  /\ 1 <= m <= 12 /\ 1 <= d <= Calendar.daysInMonth y m.
Proof.
  unfold Civil.civilFromDays.
  set (era := (z + 719468) / 146097).
  set (doe := (z + 719468) mod 146097).
  assert (Hdoe : 0 <= doe < 146097) by (apply Z.mod_pos_bound; lia).
  assert (Ez : z + 719468 = 146097 * era + doe)
    by (apply Z.div_mod; lia).
  pose proof (era_round_trip doe Hdoe) as H.
  rewrite civilOfEra_shift.
  unfold Civil.dayRoundTrips in H.
  destruct (Civil.civilOfEra 0 doe) as [[y m] d].
  rewrite !andb_true_iff, Z.eqb_eq, !Z.leb_le in H.
  rewrite daysFromCivil_shift, daysInMonth_shift; lia.
Qed.

End CivilDates.

Section DateStrings.

Local Open Scope Z_scope.

Lemma field4 y :
  0 <= y <= 9999 ->
  exists a b c d : ascii,
    Civil.pad 4 y = String a (String b (String c (String d EmptyString)))
    /\ Calendar.number [a; b; c; d] = Some y.
Proof.
  intros Hy.
  pose proof (allFrom_spec _ _ _ (proj1 fields_checked) y ltac:(lia)) as H.
  unfold Civil.fieldRoundTrips in H; cbv zeta in H.
  apply andb_prop in H; destruct H as [Hlen Hnum].
  apply Nat.eqb_eq in Hlen.
  destruct (Civil.pad 4 y) as [| a [| b [| c [| d [| e s]]]]];
    try discriminate Hlen.
  exists a, b, c, d; split; [reflexivity |].
  cbn [list_ascii_of_string] in Hnum.
  destruct (Calendar.number [a; b; c; d]) as [v |]; [| discriminate].
  apply Z.eqb_eq in Hnum; subst v; reflexivity.
Qed.

Lemma field2 n :
  0 <= n <= 99 ->
  exists a b : ascii,
    Civil.pad 2 n = String a (String b EmptyString)
    /\ Calendar.number [a; b] = Some n.
Proof.
  intros Hn.
  pose proof (allFrom_spec _ _ _ (proj2 fields_checked) n ltac:(lia)) as H.
  unfold Civil.fieldRoundTrips in H; cbv zeta in H.
  apply andb_prop in H; destruct H as [Hlen Hnum].
  apply Nat.eqb_eq in Hlen.
  destruct (Civil.pad 2 n) as [| a [| b [| c s]]]; try discriminate Hlen.
  exists a, b; split; [reflexivity |].
  cbn [list_ascii_of_string] in Hnum.
  destruct (Calendar.number [a; b]) as [v |]; [| discriminate].
  apply Z.eqb_eq in Hnum; subst v; reflexivity.
Qed.

Lemma daysInMonth_le y m : Calendar.daysInMonth y m <= 31.
Proof.
  unfold Calendar.daysInMonth.
  repeat match goal with
         | |- context [if ?b then _ else _] => destruct b
         end; lia.
Qed.

(** A valid date of a four-digit year, printed and read again. *)
Lemma isoDate_isoDatePart y m d :
  0 <= y <= 9999 -> 1 <= m <= 12 -> 1 <= d <= Calendar.daysInMonth y m ->
  Calendar.isoDate (substring 0 10 (Civil.isoDatePart y m d))
  = Some (Calendar.daysFromCivil y m d * DAY).
Proof.
  intros Hy Hm Hd.
  pose proof (daysInMonth_le y m) as H31.
  destruct (field4 y Hy) as (y1 & y2 & y3 & y4 & Ey & Ny).
  destruct (field2 m ltac:(lia)) as (m1 & m2 & Em & Nm).
  destruct (field2 d ltac:(lia)) as (d1 & d2 & Ed & Nd).
  unfold Civil.isoDatePart, Civil.isoYear.
  replace ((0 <=? y) && (y <=? 9999)) with true
    by (symmetry; apply andb_true_intro; split; apply Z.leb_le; lia).
  rewrite Ey, Em, Ed.
  cbn [append substring].
  unfold Calendar.isoDate; cbn [list_ascii_of_string].
  rewrite Ny, Nm, Nd.
  replace ((1 <=? m) && (m <=? 12) && (1 <=? d)
           && (d <=? Calendar.daysInMonth y m)) with true; [reflexivity |].
  symmetry; rewrite !andb_true_iff, !Z.leb_le; lia.
Qed.

End DateStrings.

(** The string [toISODate] returns for a day with a four-digit year, and
    how it reads. *)
Lemma toISODate_value (d y m day : Z) :
  Civil.civilFromDays (d / DAY) = (y, m, day) -> (0 <= y <= 9999)%Z ->
  toISODate d = Some (substring 0 10 (Civil.isoDatePart y m day))
  /\ Calendar.isoDate (substring 0 10 (Civil.isoDatePart y m day))
     = Some (startOfDay d).
Proof.
  intros Ecivil Hy; unfold toISODate.
  pose proof (civilFromDays_round_trip (d / DAY)) as H.
  rewrite Ecivil in H |- *.
  destruct H as (Eback & Hm & Hday).
  pose proof (daysInMonth_le y m) as H31.
  assert (Hrange : (Z.abs d <=? 8640000000000000)%Z = true).
  { apply Z.leb_le.
    assert (Hb : (-800000 <= d / DAY <= 4000000)%Z).
    { rewrite <- Eback; unfold Calendar.daysFromCivil; cbv zeta.
      destruct (m <=? 2)%Z; Z.div_mod_to_equations; lia. }
    unfold DAY in *.
    pose proof (Z.div_mod d (24 * 3600 * 1000) ltac:(lia)) as Edm.
    pose proof (Z.mod_pos_bound d (24 * 3600 * 1000) ltac:(lia)) as Hmod.
    lia. }
  rewrite Hrange.
  split; [reflexivity |].
  rewrite (isoDate_isoDatePart y m day Hy Hm Hday), Eback.
  unfold startOfDay; f_equal; lia.
Qed.

(** X22.  The date [toISODate] makes of a time value reads back as
    midnight UTC of the same day: for every time value whose calendar year
    has four digits (0 to 9999), [toISODate] returns a date-only string and
    the date-only reading of that string is the start of the day of the
    time value. *)
Theorem toISODate_reads_back (d : Z) :
  fourDigitYear d ->
  exists s : string,
    toISODate d = Some s /\ Calendar.isoDate s = Some (startOfDay d).
Proof.
  unfold fourDigitYear.
  destruct (Civil.civilFromDays (d / DAY)) as [[y m] day] eqn:Ecivil.
  intros Hy.
  destruct (toISODate_value d y m day Ecivil Hy) as [Es Eread].
  exists (substring 0 10 (Civil.isoDatePart y m day)).
  split; [exact Es | exact Eread].
Qed.

Lemma toISODate_reads_back_witness :
  exists s : string,
    toISODate Sample.noon = Some s
    /\ Calendar.isoDate s = Some (startOfDay Sample.noon).
Proof.
  apply toISODate_reads_back.
  vm_compute; split; discriminate.
Defined.

Lemma newWorkout_wellFormed uuid dateStr : wellFormed (newWorkout uuid dateStr).
Proof. exists 400, 60; repeat split; lra. Qed.



